(** * Ledger operations of the digital-banking front end

    A shallow embedding of the two handlers that move money in this
    repository and a verification of their ledger properties:

    - [handleTransfer]       (components/TransferForm, account-to-account transfer)
    - [calculateInterest],
      [handleApplyInterest]  (components/InterestCalculator, interest posting)

    Both handlers are React event handlers that read a snapshot of the
    user's accounts (the [accounts] prop) and talk to the hosted database
    through [blink.db.accounts.update] and [blink.db.transactions.create].

    Modelling choices:
    - a JavaScript [number] is an IEEE 754 binary64 value: the primitive
      [float] of the Standard Library, whose operations are the ones a
      JavaScript engine performs ([+], [-], [*], [/], [<], [<=], [>]);
    - the database is a store: a finite map from account id to account
      record and an append-only list of transaction records;
    - an awaited database call may reject; which calls do is decided by the
      environment (the [rejects] oracle of the world), and a rejection is
      caught by the handler's [try]/[catch]/[finally];
    - [Date.now()] reads the environment's clock (the [clock] readings of
      the world, one per call);
    - React state setters and toasts are recorded in the [ui] part of the
      world. *)

From Stdlib Require Import ZArith String Ascii List Bool Floats.
From Stdlib Require Import DecimalString DecimalPos DecimalZ.
From stdpp Require Import base option list gmap strings.

Local Open Scope string_scope.
Local Open Scope list_scope.
Local Open Scope Z_scope.

(** ** JavaScript numbers *)

Abbreviation number := float.

(** [Number.isFinite]: neither [NaN] nor an infinity. *)
Definition isFinite (x : number) : bool :=
  match Prim2SF x with
  | S754_zero _ | S754_finite _ _ _ => true
  | S754_infinity _ | S754_nan => false
  end.

(** [x > y] is evaluated by JavaScript as [y < x]. *)
Definition gtb (x y : number) : bool := (y <? x)%float.

(** Shapes of a binary64 value: a zero of either sign, and a zero or [NaN]
    (what a product with a zero operand can be). *)
Definition is_zero (x : spec_float) : bool :=
  match x with
  | S754_zero _ => true
  | _ => false
  end.

Definition zero_or_nan (x : spec_float) : bool :=
  match x with
  | S754_zero _ | S754_nan => true
  | S754_infinity _ | S754_finite _ _ _ => false
  end.

(** ** [parseFloat]

    The built-in of the language (ECMAScript, 19.2.4): leading white space
    is dropped, the longest prefix that is a [StrDecimalLiteral] is read,
    and its mathematical value [m * 10^e] is rounded to the nearest binary64
    value (ties to even). [NaN] when no prefix is a literal. White space is
    the ASCII white space; the strings of this program are ASCII. *)
Module JsParse.

Definition is_white (c : ascii) : bool :=
  match nat_of_ascii c with
  | 9%nat | 10%nat | 11%nat | 12%nat | 13%nat | 32%nat => true
  | _ => false
  end.

Fixpoint trim_start (s : string) : string :=
  match s with
  | String c s' => if is_white c then trim_start s' else s
  | EmptyString => s
  end.

Definition digit_of (c : ascii) : option Z :=
  let n := Z.of_nat (nat_of_ascii c) in
  if (48 <=? n) && (n <=? 57) then Some (n - 48) else None.

(** Reads the longest run of decimal digits at the head of [s]:
    the digits read so far as a number [acc], how many were read [k],
    and the rest of the string. *)
Fixpoint digits (s : string) (acc : Z) (k : Z) : Z * Z * string :=
  match s with
  | String c s' =>
      match digit_of c with
      | Some d => digits s' (10 * acc + d) (k + 1)
      | None => (acc, k, s)
      end
  | EmptyString => (acc, k, s)
  end.

(** [ExponentPart], when present and complete; [0] otherwise. *)
Definition exponent (s : string) : Z :=
  match s with
  | String c s' =>
      if (Ascii.eqb c "e" || Ascii.eqb c "E")%bool then
        match s' with
        | String "+" s'' =>
            let '(e, k, _) := digits s'' 0 0 in if 0 <? k then e else 0
        | String "-" s'' =>
            let '(e, k, _) := digits s'' 0 0 in if 0 <? k then - e else 0
        | _ =>
            let '(e, k, _) := digits s' 0 0 in if 0 <? k then e else 0
        end
      else 0
  | EmptyString => 0
  end.

(** The binary64 value nearest to [m * 10^e], with sign [neg]. *)
Definition round_decimal (neg : bool) (m e : Z) : number :=
  match m with
  | Zpos p =>
      let num := if 0 <=? e then Z.to_pos (Zpos p * 10 ^ e) else p in
      let den := if 0 <=? e then 1%positive else Z.to_pos (10 ^ (- e)) in
      SF2Prim (SFdiv prec emax (S754_finite neg num 0) (S754_finite false den 0))
  | _ => if neg then neg_zero else zero
  end.

Definition unsigned_literal (neg : bool) (s : string) : number :=
  if String.prefix "Infinity" s then (if neg then neg_infinity else infinity)
  else
    let '(ip, ik, r1) := digits s 0 0 in
    match r1 with
    | String "." r2 =>
        let '(m, fk, r3) := digits r2 ip 0 in
        if (0 <? ik) || (0 <? fk) then round_decimal neg m (exponent r3 - fk)
        else nan
    | _ => if 0 <? ik then round_decimal neg ip (exponent r1) else nan
    end.

Definition parseFloat (s : string) : number :=
  match trim_start s with
  | String "+" s' => unsigned_literal false s'
  | String "-" s' => unsigned_literal true s'
  | s' => unsigned_literal false s'
  end.

End JsParse.

Definition parseFloat := JsParse.parseFloat.

(** ** Strings

    [!s] on a string: the empty string is the only falsy one. *)
Definition falsy (s : string) : bool :=
  match s with EmptyString => true | String _ _ => false end.

(** [s.replace(c, r)] for a one-character pattern [c]: only the first
    occurrence is replaced. *)
Fixpoint replace (c : ascii) (r : string) (s : string) : string :=
  match s with
  | EmptyString => EmptyString
  | String d s' => if Ascii.eqb d c then r +:+ s' else String d (replace c r s')
  end.

(** [`${n}`] for an integral number [n] below [10^21] in magnitude, which
    every reading of [Date.now()] is: its decimal digits, with a leading [-]
    when negative. *)
Definition toString (n : Z) : string := NilZero.string_of_int (Z.to_int n).

(** ** Records of the database *)

Record Account := {
  acc_id : string;
  acc_userId : string;
  acc_accountNumber : string;
  acc_accountType : string;
  acc_accountName : option string;
  acc_balance : number;
  acc_currency : string;
  acc_status : string;
  acc_interestRate : option string;
  acc_purpose : option string;
  acc_createdAt : string
}.

Record Transaction := {
  tx_id : string;
  tx_fromAccountId : option string;
  tx_toAccountId : option string;
  tx_amount : number;
  tx_transactionType : string;
  tx_description : string;
  tx_referenceNumber : string;
  tx_status : string
}.

Definition set_balance (b : number) (a : Account) : Account :=
  {| acc_id := acc_id a; acc_userId := acc_userId a;
     acc_accountNumber := acc_accountNumber a;
     acc_accountType := acc_accountType a;
     acc_accountName := acc_accountName a; acc_balance := b;
     acc_currency := acc_currency a; acc_status := acc_status a;
     acc_interestRate := acc_interestRate a; acc_purpose := acc_purpose a;
     acc_createdAt := acc_createdAt a |}.

Definition set_status (s : string) (a : Account) : Account :=
  {| acc_id := acc_id a; acc_userId := acc_userId a;
     acc_accountNumber := acc_accountNumber a;
     acc_accountType := acc_accountType a;
     acc_accountName := acc_accountName a; acc_balance := acc_balance a;
     acc_currency := acc_currency a; acc_status := s;
     acc_interestRate := acc_interestRate a; acc_purpose := acc_purpose a;
     acc_createdAt := acc_createdAt a |}.

(** The two tables the handlers write. [accounts.update] of an id that has
    no record changes nothing. *)
Record Db := {
  accountsTable : gmap string Account;
  transactionsTable : list Transaction
}.

Definition update_balance (id : string) (b : number) (d : Db) : Db :=
  {| accountsTable := alter (set_balance b) id (accountsTable d);
     transactionsTable := transactionsTable d |}.

Definition create_transaction (t : Transaction) (d : Db) : Db :=
  {| accountsTable := accountsTable d;
     transactionsTable := transactionsTable d ++ [t] |}.

(** The balance the database holds for an id. *)
Definition balance_of (d : Db) (id : string) : option number :=
  acc_balance <$> accountsTable d !! id.

(** ** The user interface state *)

Inductive Message :=
| Text (s : string)
  (** [`Transfer of $${transferAmount.toFixed(2)} completed successfully`] *)
| TransferCompleted (transferAmount : number)
  (** [`$${totalInterestApplied.toFixed(2)} in interest has been added to your accounts`] *)
| InterestAdded (totalInterestApplied : number).

Record Toast := {
  title : string;
  description : Message;
  variant : option string
}.

Definition errorToast (msg : string) : Toast :=
  {| title := "Error"; description := Text msg; variant := Some "destructive" |}.

Record Form := {
  fromAccount : string;
  toAccount : string;
  amount : string;
  form_description : string
}.

Record Ui := {
  form : Form;
  isLoading : bool;
  isCalculating : bool;
  toasts : list Toast;
  (** calls of [onTransferComplete] and [onInterestApplied] *)
  refreshes : nat
}.

(** ** The world a handler runs in *)

Record World := {
  db : Db;
  (** successive readings of [Date.now()] and how many were taken *)
  clock : nat -> Z;
  ticks : nat;
  (** which awaited database calls reject, and how many were made *)
  rejects : nat -> bool;
  calls : nat;
  ui : Ui
}.

Definition with_ui (u : Ui) (w : World) : World :=
  {| db := db w; clock := clock w; ticks := ticks w; rejects := rejects w;
     calls := calls w; ui := u |}.

(** ** Effects: a state monad with exceptions *)

Inductive completion (A : Type) :=
| Normal (a : A)
| Thrown.
Arguments Normal {A} a.
Arguments Thrown {A}.

Definition M (A : Type) : Type := World -> completion A * World.

#[global] Instance M_ret : MRet M := fun A a w => (Normal a, w).

#[global] Instance M_bind : MBind M := fun A B k m w =>
  match m w with
  | (Normal a, w') => k a w'
  | (Thrown, w') => (Thrown, w')
  end.

(** [try { body } catch (error) { handler } finally { final }] *)
Definition try_catch_finally (body handler final : M unit) : M unit := fun w =>
  let '(r, w1) :=
    match body w with
    | (Thrown, w') => handler w'
    | r => r
    end in
  match final w1 with
  | (Normal _, w2) => (r, w2)
  | (Thrown, w2) => (Thrown, w2)
  end.

(** [Date.now()] *)
Definition Date_now : M Z := fun w =>
  (Normal (clock w (ticks w)),
   {| db := db w; clock := clock w; ticks := S (ticks w);
      rejects := rejects w; calls := calls w; ui := ui w |}).

(** [await blink.db. ...]: the call either rejects and leaves the store as
    it was, or applies its write. *)
Definition await (write : Db -> Db) : M unit := fun w =>
  if rejects w (calls w) then
    (Thrown,
     {| db := db w; clock := clock w; ticks := ticks w;
        rejects := rejects w; calls := S (calls w); ui := ui w |})
  else
    (Normal tt,
     {| db := write (db w); clock := clock w; ticks := ticks w;
        rejects := rejects w; calls := S (calls w); ui := ui w |}).

Definition accounts_update (id : string) (b : number) : M unit :=
  await (update_balance id b).

Definition transactions_create (t : Transaction) : M unit :=
  await (create_transaction t).

Definition modify_ui (f : Ui -> Ui) : M unit := fun w =>
  (Normal tt, with_ui (f (ui w)) w).

Definition toast (t : Toast) : M unit :=
  modify_ui (fun u =>
    {| form := form u; isLoading := isLoading u;
       isCalculating := isCalculating u; toasts := toasts u ++ [t];
       refreshes := refreshes u |}).

Definition setIsLoading (b : bool) : M unit :=
  modify_ui (fun u =>
    {| form := form u; isLoading := b; isCalculating := isCalculating u;
       toasts := toasts u; refreshes := refreshes u |}).

Definition setIsCalculating (b : bool) : M unit :=
  modify_ui (fun u =>
    {| form := form u; isLoading := isLoading u; isCalculating := b;
       toasts := toasts u; refreshes := refreshes u |}).

Definition setForm (f : Form) : M unit :=
  modify_ui (fun u =>
    {| form := f; isLoading := isLoading u;
       isCalculating := isCalculating u; toasts := toasts u;
       refreshes := refreshes u |}).

(** [onTransferComplete()], [onInterestApplied()]: the parent reloads. *)
Definition refresh : M unit :=
  modify_ui (fun u =>
    {| form := form u; isLoading := isLoading u;
       isCalculating := isCalculating u; toasts := toasts u;
       refreshes := S (refreshes u) |}).

(** ** TransferForm.handleTransfer *)

(** [accounts.find(acc => acc.id === id)] *)
Definition find_account (accounts : list Account) (id : string) : option Account :=
  List.find (fun acc => String.eqb (acc_id acc) id) accounts.

Definition handleTransfer (accounts : list Account) (f : Form) : M unit :=
  if falsy (fromAccount f) || falsy (toAccount f) || falsy (amount f) then
    toast (errorToast "Please fill in all required fields")
  else if String.eqb (fromAccount f) (toAccount f) then
    toast (errorToast "Cannot transfer to the same account")
  else
    let transferAmount := parseFloat (amount f) in
    if (transferAmount <=? 0)%float then
      toast (errorToast "Transfer amount must be greater than 0")
    else
      match find_account accounts (fromAccount f) with
      | None => toast (errorToast "Insufficient funds in source account")
      | Some sourceAccount =>
          if (acc_balance sourceAccount <? transferAmount)%float then
            toast (errorToast "Insufficient funds in source account")
          else
            setIsLoading true;;
            try_catch_finally
              (now1 ← Date_now;
               let referenceNumber := "TXN" +:+ toString now1 in
               now2 ← Date_now;
               transactions_create
                 {| tx_id := "txn_" +:+ toString now2;
                    tx_fromAccountId := Some (fromAccount f);
                    tx_toAccountId := Some (toAccount f);
                    tx_amount := transferAmount;
                    tx_transactionType := "transfer";
                    tx_description :=
                      if falsy (form_description f) then "Fund transfer"
                      else form_description f;
                    tx_referenceNumber := referenceNumber;
                    tx_status := "completed" |};;
               accounts_update (fromAccount f)
                 (acc_balance sourceAccount - transferAmount)%float;;
               match find_account accounts (toAccount f) with
               | Some targetAccount =>
                   accounts_update (toAccount f)
                     (acc_balance targetAccount + transferAmount)%float
               | None => mret tt
               end;;
               setForm {| fromAccount := ""; toAccount := ""; amount := "";
                          form_description := "" |};;
               toast {| title := "Success";
                        description := TransferCompleted transferAmount;
                        variant := None |};;
               refresh)
              (toast (errorToast "Failed to process transfer"))
              (setIsLoading false)
      end.

(** ** InterestCalculator *)

Inductive Period := monthly | quarterly | yearly.

Definition eligible (account : Account) : bool :=
  String.eqb (acc_accountType account) "savings"
  || String.eqb (acc_accountType account) "investment"
  || String.eqb (acc_accountType account) "business".

Definition interestEligibleAccounts (accounts : list Account) : list Account :=
  List.filter eligible accounts.

(** [account.interestRate?.replace('%', '') || '0'] *)
Definition rateText (account : Account) : string :=
  match acc_interestRate account with
  | Some r => let r' := replace "%" "" r in if falsy r' then "0" else r'
  | None => "0"
  end.

Definition rateOf (account : Account) : number :=
  (parseFloat (rateText account) / 100)%float.

Definition periodMultiplier (period : Period) : number :=
  match period with
  | monthly => (1 / 12)%float
  | quarterly => (1 / 4)%float
  | yearly => 1%float
  end.

Definition calculateInterest (account : Account) (period : Period) : number :=
  let rate := rateOf account in
  let balance := acc_balance account in
  (balance * rate * periodMultiplier period)%float.

(** [`${account.interestRate}`] *)
Definition show_rate (account : Account) : string :=
  match acc_interestRate account with
  | Some r => r
  | None => "undefined"
  end.

Definition interestTransaction (account : Account) (interestAmount : number)
    (now1 now2 : Z) : Transaction :=
  {| tx_id := "int_" +:+ toString now1 +:+ "_" +:+ acc_id account;
     tx_fromAccountId := None;
     tx_toAccountId := Some (acc_id account);
     tx_amount := interestAmount;
     tx_transactionType := "interest";
     tx_description :=
       "Monthly interest payment - " +:+ show_rate account +:+ " APY";
     tx_referenceNumber := "INT" +:+ toString now2;
     tx_status := "completed" |}.

(** The body of [for (const account of interestEligibleAccounts)], with the
    running [totalInterestApplied]. *)
Fixpoint applyEach (l : list Account) (totalInterestApplied : number) : M number :=
  match l with
  | [] => mret totalInterestApplied
  | account :: rest =>
      let interestAmount := calculateInterest account monthly in
      if gtb interestAmount 0 then
        accounts_update (acc_id account)
          (acc_balance account + interestAmount)%float;;
        now1 ← Date_now;
        now2 ← Date_now;
        transactions_create
          (interestTransaction account interestAmount now1 now2);;
        applyEach rest (totalInterestApplied + interestAmount)%float
      else applyEach rest totalInterestApplied
  end.

Definition handleApplyInterest (accounts : list Account) : M unit :=
  match interestEligibleAccounts accounts with
  | [] =>
      toast {| title := "No Eligible Accounts";
               description :=
                 Text "You need savings, investment, or business accounts to earn interest";
               variant := Some "destructive" |}
  | _ :: _ =>
      setIsCalculating true;;
      try_catch_finally
        (totalInterestApplied ← applyEach (interestEligibleAccounts accounts) 0%float;
         toast {| title := "Interest Applied Successfully";
                  description := InterestAdded totalInterestApplied;
                  variant := None |};;
         refresh)
        (toast (errorToast "Failed to apply interest"))
        (setIsCalculating false)
  end.

(** ** TransactionHistory *)

(** A transaction as the history component receives it (its own
    [Transaction] interface: source, destination and description may be
    absent, and the database's [createdAt] is present). *)
Record TransactionRow := {
  row_id : string;
  row_fromAccountId : option string;
  row_toAccountId : option string;
  row_amount : number;
  row_transactionType : string;
  row_description : option string;
  row_referenceNumber : string;
  row_status : string;
  row_createdAt : string
}.

(** [s.toLowerCase()], on ASCII letters. *)
Definition lower (c : ascii) : ascii :=
  let n := nat_of_ascii c in
  if (65 <=? n)%nat && (n <=? 90)%nat then ascii_of_nat (n + 32) else c.

Fixpoint toLowerCase (s : string) : string :=
  match s with
  | EmptyString => EmptyString
  | String c s' => String (lower c) (toLowerCase s')
  end.

(** [s.includes(t)]: [t] occurs in [s] at some position. *)
Fixpoint includes (s t : string) : bool :=
  String.prefix t s ||
  match s with
  | EmptyString => false
  | String _ s' => includes s' t
  end.

Definition getAccountNumber (accounts : list Account) (accountId : option string)
    : string :=
  match accountId with
  | None => "External"
  | Some id =>
      if falsy id then "External"
      else
        match find_account accounts id with
        | Some account =>
            if falsy (acc_accountNumber account) then "Unknown"
            else acc_accountNumber account
        | None => "Unknown"
        end
  end.

Definition matchesSearch (accounts : list Account) (searchTerm : string)
    (transaction : TransactionRow) : bool :=
  match row_description transaction with
  | Some d => includes (toLowerCase d) (toLowerCase searchTerm)
  | None => false
  end
  || includes (toLowerCase (row_referenceNumber transaction))
       (toLowerCase searchTerm)
  || includes
       (toLowerCase (getAccountNumber accounts (row_fromAccountId transaction)))
       (toLowerCase searchTerm)
  || includes
       (toLowerCase (getAccountNumber accounts (row_toAccountId transaction)))
       (toLowerCase searchTerm).

Definition filteredTransactions (transactions : list TransactionRow)
    (accounts : list Account) (searchTerm filterType filterStatus : string)
    : list TransactionRow :=
  List.filter
    (fun transaction =>
       let matchesType :=
         String.eqb filterType "all"
         || String.eqb (row_transactionType transaction) filterType in
       let matchesStatus :=
         String.eqb filterStatus "all"
         || String.eqb (row_status transaction) filterStatus in
       matchesSearch accounts searchTerm transaction
       && matchesType && matchesStatus)
    transactions.

(** ** CreateAccountModal *)

Record AccountTypeOption := {
  value : string;
  label : string;
  type_description : string;
  rate : string
}.

Definition accountTypes : list AccountTypeOption :=
  [ {| value := "checking"; label := "Checking Account";
       type_description := "For everyday transactions"; rate := "0.01%" |};
    {| value := "savings"; label := "Savings Account";
       type_description := "Earn interest on your balance"; rate := "2.5%" |};
    {| value := "business"; label := "Business Account";
       type_description := "For business operations"; rate := "1.8%" |};
    {| value := "investment"; label := "Investment Account";
       type_description := "High-yield investment account"; rate := "4.2%" |} ].

(** [s.padStart(targetLength, c)] for a one-character pad [c]. *)
Fixpoint repeat_char (c : ascii) (n : nat) : string :=
  match n with
  | O => EmptyString
  | S n' => String c (repeat_char c n')
  end.

Definition padStart (targetLength : nat) (c : ascii) (s : string) : string :=
  repeat_char c (targetLength - String.length s) +:+ s.

(** [generateAccountNumber], given the draw
    [Math.floor(Math.random() * 100000000)], an integer from 0 to
    99999999. *)
Definition generateAccountNumber (accountType : string) (random : Z) : string :=
  let prefix :=
    if String.eqb accountType "checking" then "1001"
    else if String.eqb accountType "savings" then "2001"
    else if String.eqb accountType "business" then "3001"
    else "4001" in
  prefix +:+ padStart 8 "0" (toString random).

(** A string of decimal digits. *)
Fixpoint all_digits (s : string) : bool :=
  match s with
  | EmptyString => true
  | String c s' =>
      match JsParse.digit_of c with
      | Some _ => all_digits s'
      | None => false
      end
  end.

(** The state of the modal: its four fields, its loading flag, and whether
    it is open ([onClose] closes it). *)
Record Modal := {
  m_accountType : string;
  m_accountName : string;
  m_initialDeposit : string;
  m_purpose : string;
  m_isLoading : bool;
  m_isOpen : bool
}.

(** A number as a condition: [0], [-0] and [NaN] are the falsy ones. *)
Definition truthy (x : number) : bool :=
  match Prim2SF x with
  | S754_zero _ | S754_nan => false
  | S754_infinity _ | S754_finite _ _ _ => true
  end.

(** [parseFloat(initialDeposit) || 0] *)
Definition depositOf (initialDeposit : string) : number :=
  if truthy (parseFloat initialDeposit) then parseFloat initialDeposit
  else 0%float.

(** [blink.db.accounts.create]: the record is stored under its id. *)
Definition create_account (a : Account) (d : Db) : Db :=
  {| accountsTable := <[acc_id a := a]> (accountsTable d);
     transactionsTable := transactionsTable d |}.

Definition accounts_create (a : Account) : M unit :=
  await (create_account a).

(** The account record the modal creates; [createdAt] is the stamp the
    database puts on it. *)
Definition newAccount (userId : string) (m : Modal) (accountNumber : string)
    (now1 : Z) (createdAt : string) : Account :=
  {| acc_id := "acc_" +:+ toString now1;
     acc_userId := userId;
     acc_accountNumber := accountNumber;
     acc_accountType := m_accountType m;
     acc_accountName := Some (m_accountName m);
     acc_balance := depositOf (m_initialDeposit m);
     acc_currency := "USD";
     acc_status := "active";
     acc_interestRate :=
       option_map rate
         (List.find (fun type => String.eqb (value type) (m_accountType m))
            accountTypes);
     acc_purpose := if falsy (m_purpose m) then None else Some (m_purpose m);
     acc_createdAt := createdAt |}.

(** The initial-deposit record; its three clock readings are taken in the
    order of the fields. *)
Definition depositRecord (deposit : number) (now2 now3 now4 : Z) : Transaction :=
  {| tx_id := "txn_" +:+ toString now2;
     tx_fromAccountId := None;
     tx_toAccountId := Some ("acc_" +:+ toString now3);
     tx_amount := deposit;
     tx_transactionType := "deposit";
     tx_description := "Initial deposit";
     tx_referenceNumber := "DEP" +:+ toString now4;
     tx_status := "completed" |}.

(** [`${selectedType?.label} created successfully!`] *)
Definition createdMessage (accountType : string) : Message :=
  Text
    (match List.find (fun type => String.eqb (value type) accountType)
             accountTypes with
     | Some type => label type
     | None => "undefined"
     end +:+ " created successfully!").

(** [try { body } catch (error) { handler }], returning a value. *)
Definition try_catch {A : Type} (body handler : M A) : M A := fun w =>
  match body w with
  | (Thrown, w') => handler w'
  | r => r
  end.

(** [handleCreateAccount]. The modal's own state is passed in and returned;
    [random] is the draw of [generateAccountNumber] and [createdAt] the
    database's stamp. The [finally] block clears the loading flag. *)
Definition handleCreateAccount (userId : string) (random : Z)
    (createdAt : string) (m : Modal) : M Modal :=
  if falsy (m_accountType m) || falsy (m_accountName m) then
    toast (errorToast "Please fill in all required fields");; mret m
  else
    let deposit := depositOf (m_initialDeposit m) in
    if (deposit <? 0)%float then
      toast (errorToast "Initial deposit cannot be negative");; mret m
    else
      m' ← try_catch
             (let accountNumber :=
                generateAccountNumber (m_accountType m) random in
              now1 ← Date_now;
              accounts_create (newAccount userId m accountNumber now1 createdAt);;
              (if gtb deposit 0 then
                 now2 ← Date_now;
                 now3 ← Date_now;
                 now4 ← Date_now;
                 transactions_create (depositRecord deposit now2 now3 now4)
               else mret tt);;
              toast {| title := "Success";
                       description := createdMessage (m_accountType m);
                       variant := None |};;
              refresh;;
              mret {| m_accountType := ""; m_accountName := "";
                      m_initialDeposit := ""; m_purpose := "";
                      m_isLoading := true; m_isOpen := false |})
             (toast (errorToast "Failed to create account");;
              mret {| m_accountType := m_accountType m;
                      m_accountName := m_accountName m;
                      m_initialDeposit := m_initialDeposit m;
                      m_purpose := m_purpose m;
                      m_isLoading := true; m_isOpen := m_isOpen m |});
      mret {| m_accountType := m_accountType m';
              m_accountName := m_accountName m';
              m_initialDeposit := m_initialDeposit m';
              m_purpose := m_purpose m';
              m_isLoading := false; m_isOpen := m_isOpen m' |}.

(** ** AnalyticsDashboard.loadAnalytics: the figures

    The part of [loadAnalytics] that turns the user's account ids and the
    transactions the query returned into the figures of the dashboard. Of a
    transaction it reads [amount] (through [parseFloat], hence as text),
    [toAccountId], [createdAt] and [type]. The label of a month,
    [new Date(createdAt).toLocaleDateString('en-US', ...)], is left to the
    environment: [monthLabel]. *)

Record AnalyticsRow := {
  an_amount : string;
  an_toAccountId : option string;
  an_createdAt : string;
  an_type : option string
}.

(** A JavaScript [Map] with string keys: its entries in insertion order. *)
Definition JsMap (V : Type) : Type := list (string * V).

Definition map_get {V : Type} (m : JsMap V) (k : string) : option V :=
  option_map snd (List.find (fun e => String.eqb (fst e) k) m).

(** [m.set(k, v)]: an existing key keeps its place. *)
Fixpoint map_set {V : Type} (m : JsMap V) (k : string) (v : V) : JsMap V :=
  match m with
  | [] => [(k, v)]
  | (k', v') :: rest =>
      if String.eqb k' k then (k', v) :: rest
      else (k', v') :: map_set rest k v
  end.

Record MonthData := { income : number; expenses : number }.

Record Tally := {
  t_totalIncome : number;
  t_totalExpenses : number;
  t_monthlyMap : JsMap MonthData;
  t_categoryMap : JsMap number
}.

Record CategoryShare := {
  category : string;
  cs_amount : number;
  percentage : number
}.

Record TransactionAnalytics := {
  totalIncome : number;
  totalExpenses : number;
  netFlow : number;
  transactionCount : nat;
  averageTransaction : number;
  monthlyData : list (string * MonthData);
  categoryBreakdown : list CategoryShare
}.

(** [accountIds.includes(tx.toAccountId)] *)
Definition isIncome (accountIds : list string) (tx : AnalyticsRow) : bool :=
  match an_toAccountId tx with
  | Some id => existsb (String.eqb id) accountIds
  | None => false
  end.

(** [tx.type || 'Other'] *)
Definition categoryOf (tx : AnalyticsRow) : string :=
  match an_type tx with
  | Some t => if falsy t then "Other" else t
  | None => "Other"
  end.

(** A list length as a number. *)
Definition number_of_nat (n : nat) : number :=
  PrimFloat.of_uint63 (Uint63.of_Z (Z.of_nat n)).

Section Analytics.

Variable monthLabel : string -> string.

(** The body of [transactions.forEach(tx => ...)]. *)
Definition tallyOne (accountIds : list string) (t : Tally) (tx : AnalyticsRow)
    : Tally :=
  let amount := parseFloat (an_amount tx) in
  let month := monthLabel (an_createdAt tx) in
  let monthlyMap :=
    match map_get (t_monthlyMap t) month with
    | Some _ => t_monthlyMap t
    | None => map_set (t_monthlyMap t) month {| income := 0; expenses := 0 |}
    end in
  let monthData :=
    match map_get monthlyMap month with
    | Some d => d
    | None => {| income := 0; expenses := 0 |}
    end in
  let category := categoryOf tx in
  let sofar :=
    match map_get (t_categoryMap t) category with
    | Some a => if truthy a then a else 0%float
    | None => 0%float
    end in
  {| t_totalIncome :=
       if isIncome accountIds tx then (t_totalIncome t + amount)%float
       else t_totalIncome t;
     t_totalExpenses :=
       if isIncome accountIds tx then t_totalExpenses t
       else (t_totalExpenses t + amount)%float;
     t_monthlyMap :=
       map_set monthlyMap month
         (if isIncome accountIds tx
          then {| income := (income monthData + amount)%float;
                  expenses := expenses monthData |}
          else {| income := income monthData;
                  expenses := (expenses monthData + amount)%float |});
     t_categoryMap := map_set (t_categoryMap t) category (sofar + amount)%float |}.

Definition tally (accountIds : list string) (transactions : list AnalyticsRow)
    : Tally :=
  fold_left (tallyOne accountIds) transactions
    {| t_totalIncome := 0; t_totalExpenses := 0; t_monthlyMap := [];
       t_categoryMap := [] |}.

(** The analytics [loadAnalytics] sets, from the user's accounts and the
    transactions returned for them. *)
Definition analytics (accounts : list Account) (transactions : list AnalyticsRow)
    : TransactionAnalytics :=
  match accounts with
  | [] =>
      {| totalIncome := 0; totalExpenses := 0; netFlow := 0;
         transactionCount := 0; averageTransaction := 0; monthlyData := [];
         categoryBreakdown := [] |}
  | _ :: _ =>
      let accountIds := map acc_id accounts in
      let t := tally accountIds transactions in
      let totalCategoryAmount :=
        fold_left (fun sum amount => (sum + amount)%float)
          (map snd (t_categoryMap t)) 0%float in
      {| totalIncome := t_totalIncome t;
         totalExpenses := t_totalExpenses t;
         netFlow := (t_totalIncome t - t_totalExpenses t)%float;
         transactionCount := length transactions;
         averageTransaction :=
           if (0 <? length transactions)%nat
           then ((t_totalIncome t + t_totalExpenses t)
                 / number_of_nat (length transactions))%float
           else 0%float;
         monthlyData := t_monthlyMap t;
         categoryBreakdown :=
           map (fun e =>
                  {| category := fst e; cs_amount := snd e;
                     percentage :=
                       if gtb totalCategoryAmount 0
                       then (snd e / totalCategoryAmount * 100)%float
                       else 0%float |})
             (t_categoryMap t) |}
  end.

End Analytics.

(** ** Reading the handlers

    Names for what the handlers test and write, used to state their
    properties. *)

(** A form that passes the first three checks of [handleTransfer]: the
    fields are filled in, the two accounts differ and the amount is not
    [<= 0]. *)
Definition passes_validation (f : Form) : Prop :=
  falsy (fromAccount f) = false /\ falsy (toAccount f) = false /\
  falsy (amount f) = false /\ fromAccount f <> toAccount f /\
  (parseFloat (amount f) <=? 0)%float = false.

(** Every awaited database call resolves. *)
Definition no_rejection (w : World) : Prop := forall n, rejects w n = false.

(** The record [handleTransfer] creates, given the two clock readings. *)
Definition transferRecord (f : Form) (now1 now2 : Z) : Transaction :=
  {| tx_id := "txn_" +:+ toString now2;
     tx_fromAccountId := Some (fromAccount f);
     tx_toAccountId := Some (toAccount f);
     tx_amount := parseFloat (amount f);
     tx_transactionType := "transfer";
     tx_description :=
       if falsy (form_description f) then "Fund transfer"
       else form_description f;
     tx_referenceNumber := "TXN" +:+ toString now1;
     tx_status := "completed" |}.

(** The credit leg: skipped when the destination is not in [accounts]. *)
Definition credit (accounts : list Account) (f : Form) (d : Db) : Db :=
  match find_account accounts (toAccount f) with
  | Some targetAccount =>
      update_balance (toAccount f)
        (acc_balance targetAccount + parseFloat (amount f))%float d
  | None => d
  end.

(** The test of the interest loop body: [interestAmount > 0]. *)
Definition posts (account : Account) : bool :=
  gtb (calculateInterest account monthly) 0.

(** The accounts one invocation posts interest to, in order. *)
Definition due (accounts : list Account) : list Account :=
  List.filter posts (interestEligibleAccounts accounts).

(** The records a run of the loop appends when every call resolves; the
    run starts with [t] clock readings taken. *)
Fixpoint batch (clk : nat -> Z) (t : nat) (l : list Account) : list Transaction :=
  match l with
  | [] => []
  | account :: rest =>
      if posts account then
        interestTransaction account (calculateInterest account monthly)
          (clk t) (clk (S t))
        :: batch clk (S (S t)) rest
      else batch clk t rest
  end.

(** The account table after such a run. *)
Fixpoint credited (l : list Account) (tbl : gmap string Account) : gmap string Account :=
  match l with
  | [] => tbl
  | account :: rest =>
      if posts account then
        credited rest
          (alter
             (set_balance
                (acc_balance account + calculateInterest account monthly)%float)
             (acc_id account) tbl)
      else credited rest tbl
  end.

(** [accounts.filter(account => account.id !== fromAccount)]: the accounts
    the destination selector of the transfer form offers. *)
Definition destinationOptions (accounts : list Account) (fromAccount : string)
    : list Account :=
  List.filter (fun account => negb (String.eqb (acc_id account) fromAccount))
    accounts.

(** [d'] holds the accounts of [d], each one as in [d] but for its
    balance. *)
Definition same_but_balances (d d' : Db) : Prop :=
  forall id,
    match accountsTable d !! id, accountsTable d' !! id with
    | Some a, Some a' => a' = set_balance (acc_balance a') a
    | None, None => True
    | _, _ => False
    end.

(** What every record written by [handleTransfer] satisfies. *)
Definition transfer_record_ok (t : Transaction) : Prop :=
  tx_status t = "completed" /\ tx_transactionType t = "transfer" /\
  (tx_amount t <=? 0)%float = false /\
  exists a b, tx_fromAccountId t = Some a /\ tx_toAccountId t = Some b /\
              a <> b /\ a <> "" /\ b <> "".

(** [interestEligibleAccounts.reduce((sum, account) => sum +
    calculateInterest(account, selectedPeriod), 0)] *)
Definition totalProjectedInterest (accounts : list Account) (selectedPeriod : Period)
    : number :=
  fold_left (fun sum account => (sum + calculateInterest account selectedPeriod)%float)
    (interestEligibleAccounts accounts) 0%float.

(** [interestEligibleAccounts.reduce((sum, account) => sum + account.balance, 0)] *)
Definition totalBalance (accounts : list Account) : number :=
  fold_left (fun sum account => (sum + acc_balance account)%float)
    (interestEligibleAccounts accounts) 0%float.

(** The running total of the interest loop over the accounts it posts to. *)
Definition totalApplied (l : list Account) (total : number) : number :=
  fold_left (fun sum account => (sum + calculateInterest account monthly)%float)
    (List.filter posts l) total.

(** What every record written by [handleApplyInterest] satisfies. *)
Definition interest_record_ok (accounts : list Account) (t : Transaction) : Prop :=
  tx_status t = "completed" /\ tx_transactionType t = "interest" /\
  tx_fromAccountId t = None /\ gtb (tx_amount t) 0 = true /\
  exists a, In a (due accounts) /\ tx_toAccountId t = Some (acc_id a) /\
            tx_amount t = calculateInterest a monthly.

(** Signs of a binary64 value: not [> 0] (a zero, a negative number or
    [NaN]) and not [< 0]. *)
Definition not_positive (x : spec_float) : bool :=
  match x with
  | S754_zero _ | S754_nan => true
  | S754_infinity s | S754_finite s _ _ => s
  end.

Definition not_negative (x : spec_float) : bool :=
  match x with
  | S754_zero _ | S754_nan => true
  | S754_infinity s | S754_finite s _ _ => negb s
  end.

(** ** Worked inputs *)

Definition mkAccount (id type : string) (balance : number)
    (status : string) (rate : option string) : Account :=
  {| acc_id := id; acc_userId := "user_1";
     acc_accountNumber := "2001" +:+ id; acc_accountType := type;
     acc_accountName := None; acc_balance := balance; acc_currency := "USD";
     acc_status := status; acc_interestRate := rate; acc_purpose := None;
     acc_createdAt := "2024-01-01T00:00:00.000Z" |}.

(** A database holding the given accounts and no transaction. *)
Definition store (accounts : list Account) : Db :=
  {| accountsTable := list_to_map (map (fun a => (acc_id a, a)) accounts);
     transactionsTable := [] |}.

Definition idleUi : Ui :=
  {| form := {| fromAccount := ""; toAccount := ""; amount := "";
                form_description := "" |};
     isLoading := false; isCalculating := false; toasts := [];
     refreshes := 0 |}.

(** A world where no database call rejects and the clock reads [now]
    at every call (all calls fall in one millisecond). *)
Definition world (d : Db) (now : Z) : World :=
  {| db := d; clock := fun _ => now; ticks := 0; rejects := fun _ => false;
     calls := 0; ui := idleUi |}.

(** Scenario A: 100.00 on X and 50.00 on Y, 30.00 requested. *)
Definition X100 := mkAccount "X" "checking" 100 "active" None.
Definition Y50 := mkAccount "Y" "savings" 50 "active" (Some "2.5%").

Definition form_30 : Form :=
  {| fromAccount := "X"; toAccount := "Y"; amount := "30.00";
     form_description := "" |}.

(** Scenario B: 70.00 on X, 100.00 requested. *)
Definition X70 := mkAccount "X" "checking" 70 "active" None.
Definition Y80 := mkAccount "Y" "savings" 80 "active" (Some "2.5%").

Definition form_100 : Form :=
  {| fromAccount := "X"; toAccount := "Y"; amount := "100.00";
     form_description := "" |}.

(** A negative amount, and the whole balance of X. *)
Definition form_negative : Form :=
  {| fromAccount := "X"; toAccount := "Y"; amount := "-5";
     form_description := "" |}.

Definition form_100_all : Form :=
  {| fromAccount := "X"; toAccount := "Y"; amount := "100";
     form_description := "savings" |}.

(** Accounts that are not active. *)
Definition X100_suspended := mkAccount "X" "checking" 100 "suspended" None.
Definition Y50_closed := mkAccount "Y" "savings" 50 "closed" (Some "2.5%").

(** Scenario C: 1000.00 at 2.40%; and accounts at other balances and
    rates. *)
Definition Z1000 := mkAccount "Z" "savings" 1000 "active" (Some "2.40%").
Definition W100_01 :=
  mkAccount "W" "savings" (parseFloat "100.01") "active" (Some "2.5%").
Definition S0 := mkAccount "S" "savings" 0 "active" (Some "2.5%").
Definition B500 := mkAccount "B" "business" 500 "active" None.

(** A world like [world d now] whose clock advances by one millisecond
    at every reading. *)
Definition world_ticking (d : Db) (now : Z) : World :=
  {| db := d; clock := fun n => now + Z.of_nat n; ticks := 0;
     rejects := fun _ => false; calls := 0; ui := idleUi |}.

(** A filled-in modal: a savings account opened with 250.00. *)
Definition modal_savings : Modal :=
  {| m_accountType := "savings"; m_accountName := "Rainy day";
     m_initialDeposit := "250.00"; m_purpose := "";
     m_isLoading := false; m_isOpen := true |}.

(** ** Further names and inputs *)

(** The toasts of the two [catch] blocks. *)
Definition failedTransfer : Toast := errorToast "Failed to process transfer".

Definition failedInterest : Toast := errorToast "Failed to apply interest".

(** The modal after a successful creation, and after a failed one. *)
Definition modal_done : Modal :=
  {| m_accountType := ""; m_accountName := ""; m_initialDeposit := "";
     m_purpose := ""; m_isLoading := false; m_isOpen := false |}.

Definition modal_kept (m : Modal) : Modal :=
  {| m_accountType := m_accountType m; m_accountName := m_accountName m;
     m_initialDeposit := m_initialDeposit m; m_purpose := m_purpose m;
     m_isLoading := false; m_isOpen := m_isOpen m |}.

(** The keys of the two maps of a tally are pairwise distinct. *)
Definition keys_ok (t : Tally) : Prop :=
  NoDup (map fst (t_monthlyMap t)) /\ NoDup (map fst (t_categoryMap t)).

(** A world like [world d now] in which the database call number [k]
    (counting from 0) rejects. *)
Definition world_rejecting (k : nat) (d : Db) (now : Z) : World :=
  {| db := d; clock := fun _ => now; ticks := 0;
     rejects := fun n => Nat.eqb n k; calls := 0; ui := idleUi |}.

(** An amount that is not a number. *)
Definition form_words : Form :=
  {| fromAccount := "X"; toAccount := "Y"; amount := "thirty";
     form_description := "" |}.

(** An overdrawn savings account. *)
Definition V_overdrawn :=
  mkAccount "V" "savings" (-250) "active" (Some "2.5%").

(** An interest record as the history receives it. *)
Definition row_interest : TransactionRow :=
  {| row_id := "int_1700000000000_Z"; row_fromAccountId := None;
     row_toAccountId := Some "Z"; row_amount := 2;
     row_transactionType := "interest";
     row_description := Some "Monthly interest payment - 2.40% APY";
     row_referenceNumber := "INT1700000000000"; row_status := "completed";
     row_createdAt := "2024-02-01T00:00:00.000Z" |}.

(** Modals with a negative deposit and with no deposit. *)
Definition modal_negative : Modal :=
  {| m_accountType := "checking"; m_accountName := "Daily";
     m_initialDeposit := "-20"; m_purpose := "";
     m_isLoading := false; m_isOpen := true |}.

Definition modal_no_deposit : Modal :=
  {| m_accountType := "investment"; m_accountName := "Long term";
     m_initialDeposit := ""; m_purpose := "retirement";
     m_isLoading := false; m_isOpen := true |}.

(** A month label that keeps the year and month of an ISO date, and two
    transactions as the analytics receive them: one to the user's account
    Y, one to an account Q of somebody else. *)
Definition isoMonth (createdAt : string) : string :=
  String.substring 0 7 createdAt.

Definition row_transfer_in : AnalyticsRow :=
  {| an_amount := "30"; an_toAccountId := Some "Y";
     an_createdAt := "2024-02-03T10:00:00.000Z"; an_type := None |}.

Definition row_transfer_out : AnalyticsRow :=
  {| an_amount := "12.5"; an_toAccountId := Some "Q";
     an_createdAt := "2024-03-01T10:00:00.000Z"; an_type := None |}.

(** * Verification *)

(** ** [parseFloat] on a few strings *)

Example parseFloat_amount : parseFloat "30.00" = 30%float.
Proof. reflexivity. Qed.

Example parseFloat_rate : parseFloat "2.5" = 2.5%float.
Proof. reflexivity. Qed.

Example parseFloat_rounds_to_nearest :
  parseFloat "0.1" = 0x1.999999999999ap-4%float /\
  parseFloat "2.40" = 0x1.3333333333333p+1%float /\
  parseFloat "100.01" = 0x1.900a3d70a3d71p+6%float /\
  parseFloat "9007199254740993" = 9007199254740992%float.
Proof. repeat split; reflexivity. Qed.

Example parseFloat_prefix : parseFloat "  -12.5e-1 USD" = (-1.25)%float.
Proof. reflexivity. Qed.

Example parseFloat_exponent_cut : parseFloat "7e+" = 7%float.
Proof. reflexivity. Qed.

Example parseFloat_not_a_number : parseFloat "n/a" = nan.
Proof. reflexivity. Qed.

Example parseFloat_empty : parseFloat "" = nan.
Proof. reflexivity. Qed.

(** ** Facts on binary64 arithmetic *)

Lemma Prim2SF_inj (x y : number) : Prim2SF x = Prim2SF y -> x = y.
Proof.
  intros H. rewrite <- (SF2Prim_Prim2SF x), <- (SF2Prim_Prim2SF y).
  now rewrite H.
Qed.

Lemma sub_diag_finite (x : number) :
  isFinite x = true -> (x - x)%float = 0%float.
Proof.
  unfold isFinite. intros H. apply Prim2SF_inj. rewrite sub_spec.
  destruct (Prim2SF x) as [s|s| |s m e]; try discriminate.
  - now destruct s.
  - assert (D : forall a, IntDef.Z.sub a a = 0) by exact Z.sub_diag.
    assert (I : IntDef.Z.min e e = e) by exact (Z.min_id e).
    unfold SF64sub, SFsub. rewrite I. unfold shl_align.
    rewrite (D e). cbn [fst]. now rewrite (D (cond_Zopp s (Zpos m))).
Qed.

Lemma ltb_irrefl_finite (x : number) :
  isFinite x = true -> (x <? x)%float = false.
Proof.
  unfold isFinite. intros H. rewrite ltb_spec.
  destruct (Prim2SF x) as [s|s| |s m e]; try discriminate.
  - reflexivity.
  - assert (Z : IntDef.Z.compare e e = Eq) by exact (Z.compare_refl e).
    assert (P : PosDef.Pos.compare_cont Eq m m = Eq)
      by exact (Pos.compare_refl m).
    unfold SFltb, SFcompare. rewrite Z, P. now destruct s.
Qed.

Lemma eqb_zero (x : number) : (x =? 0)%float = is_zero (Prim2SF x).
Proof.
  rewrite FloatAxioms.eqb_spec. change (Prim2SF 0) with (S754_zero false).
  now destruct (Prim2SF x) as [s|[]| |[] m e].
Qed.

Lemma gtb_zero_or_nan (x : number) :
  zero_or_nan (Prim2SF x) = true -> gtb x 0 = false.
Proof.
  unfold gtb. rewrite ltb_spec. change (Prim2SF 0) with (S754_zero false).
  now destruct (Prim2SF x).
Qed.

Lemma mul_zero_or_nan_l (x y : number) :
  zero_or_nan (Prim2SF x) = true -> zero_or_nan (Prim2SF (x * y)) = true.
Proof.
  rewrite mul_spec. now destruct (Prim2SF x), (Prim2SF y).
Qed.

Lemma mul_zero_or_nan_r (x y : number) :
  zero_or_nan (Prim2SF y) = true -> zero_or_nan (Prim2SF (x * y)) = true.
Proof.
  rewrite mul_spec. now destruct (Prim2SF x), (Prim2SF y).
Qed.

Lemma mul_is_zero_l (x y : number) :
  is_zero (Prim2SF x) = true -> isFinite y = true ->
  is_zero (Prim2SF (x * y)) = true.
Proof.
  unfold isFinite. rewrite mul_spec. now destruct (Prim2SF x), (Prim2SF y).
Qed.

Lemma mul_is_zero_r (x y : number) :
  isFinite x = true -> is_zero (Prim2SF y) = true ->
  is_zero (Prim2SF (x * y)) = true.
Proof.
  unfold isFinite. rewrite mul_spec. now destruct (Prim2SF x), (Prim2SF y).
Qed.

Lemma div_100_is_zero (x : number) :
  is_zero (Prim2SF x) = true -> is_zero (Prim2SF (x / 100)) = true.
Proof.
  rewrite div_spec. destruct (Prim2SF x); try discriminate. reflexivity.
Qed.

Lemma is_zero_zero_or_nan (x : spec_float) :
  is_zero x = true -> zero_or_nan x = true.
Proof. now destruct x. Qed.

(** ** Transfers that validation rejects *)

(** C3. A transfer request whose amount is [<= 0], or whose source and
    destination are the same account, fails: the handler only shows an
    error toast, makes no database call, and leaves every balance and the
    transaction table as they were. *)
Theorem transfer_invalid_request_rejected
    (accounts : list Account) (f : Form) (w : World) :
  (parseFloat (amount f) <=? 0)%float = true \/ fromAccount f = toAccount f ->
  (exists msg, handleTransfer accounts f w = toast (errorToast msg) w) /\
  accountsTable (db (handleTransfer accounts f w).2) = accountsTable (db w) /\
  transactionsTable (db (handleTransfer accounts f w).2) = transactionsTable (db w) /\
  calls (handleTransfer accounts f w).2 = calls w.
Proof.
  intros H.
  assert (E : exists msg, handleTransfer accounts f w = toast (errorToast msg) w).
  { unfold handleTransfer.
    destruct (falsy (fromAccount f) || falsy (toAccount f) || falsy (amount f));
      [eauto|].
    destruct (String.eqb_spec (fromAccount f) (toAccount f)); [eauto|].
    destruct H as [H|H]; [rewrite H; eauto | contradiction]. }
  split; [exact E|]. destruct E as [msg ->]. auto.
Qed.

(** C3 at a request for -5. *)
Lemma transfer_invalid_request_rejected_witness :
  ((parseFloat (amount form_negative) <=? 0)%float = true \/
   fromAccount form_negative = toAccount form_negative) /\
  transactionsTable
    (db (handleTransfer [X100; Y50] form_negative
           (world (store [X100; Y50]) 1700000000000)).2) = [].
Proof.
  split.
  - left. vm_compute. reflexivity.
  - apply (transfer_invalid_request_rejected [X100; Y50] form_negative
             (world (store [X100; Y50]) 1700000000000)).
    left. vm_compute. reflexivity.
Defined.

(** C4. A transfer whose amount exceeds the balance of the source account
    fails and leaves both tables of the database untouched; when the
    request passed the earlier checks, the failure is the insufficient-funds
    error. *)
Theorem transfer_insufficient_funds_rejected
    (accounts : list Account) (f : Form) (w : World) (sourceAccount : Account) :
  find_account accounts (fromAccount f) = Some sourceAccount ->
  (acc_balance sourceAccount <? parseFloat (amount f))%float = true ->
  (exists msg, handleTransfer accounts f w = toast (errorToast msg) w) /\
  (passes_validation f ->
   handleTransfer accounts f w =
   toast (errorToast "Insufficient funds in source account") w) /\
  accountsTable (db (handleTransfer accounts f w).2) = accountsTable (db w) /\
  transactionsTable (db (handleTransfer accounts f w).2) = transactionsTable (db w).
Proof.
  intros Hfind Hlt.
  assert (E : exists msg, handleTransfer accounts f w = toast (errorToast msg) w).
  { unfold handleTransfer.
    destruct (falsy (fromAccount f) || falsy (toAccount f) || falsy (amount f));
      [eauto|].
    destruct (String.eqb (fromAccount f) (toAccount f)); [eauto|].
    destruct (parseFloat (amount f) <=? 0)%float; [eauto|].
    rewrite Hfind, Hlt. eauto. }
  split; [exact E|]. split.
  - intros (H1 & H2 & H3 & H4 & H5). unfold handleTransfer.
    rewrite H1, H2, H3, H5, Hfind, Hlt. simpl.
    destruct (String.eqb_spec (fromAccount f) (toAccount f)); [contradiction|].
    reflexivity.
  - destruct E as [msg ->]. auto.
Qed.

(** C4 at Scenario B. *)
Lemma transfer_insufficient_funds_rejected_witness :
  let w := world (store [X70; Y80]) 1700000000000 in
  let w' := (handleTransfer [X70; Y80] form_100 w).2 in
  passes_validation form_100 /\
  toasts (ui w') = [errorToast "Insufficient funds in source account"] /\
  balance_of (db w') "X" = Some 70%float /\
  balance_of (db w') "Y" = Some 80%float /\
  transactionsTable (db w') = [].
Proof.
  intros w w'.
  destruct (transfer_insufficient_funds_rejected [X70; Y80] form_100 w X70)
    as (_ & Hmsg & Hacc & Htx).
  - reflexivity.
  - vm_compute. reflexivity.
  - assert (V : passes_validation form_100).
    { repeat split; try reflexivity; try discriminate. }
    split; [exact V|]. subst w'. unfold balance_of.
    rewrite Hacc, Htx, (Hmsg V). repeat split; vm_compute; reflexivity.
Defined.

(** ** Transfers that go through *)

(** Runs a handler through database calls that all resolve. *)
Ltac resolve_calls H :=
  unfold no_rejection in H; repeat (progress (simpl; rewrite ?H)).

Lemma handleTransfer_completes
    (accounts : list Account) (f : Form) (w : World) (sourceAccount : Account) :
  passes_validation f ->
  find_account accounts (fromAccount f) = Some sourceAccount ->
  (acc_balance sourceAccount <? parseFloat (amount f))%float = false ->
  no_rejection w ->
  let r := handleTransfer accounts f w in
  r.1 = Normal tt /\
  db r.2 =
    credit accounts f
      (update_balance (fromAccount f)
         (acc_balance sourceAccount - parseFloat (amount f))%float
         (create_transaction
            (transferRecord f (clock w (ticks w)) (clock w (S (ticks w))))
            (db w))) /\
  toasts (ui r.2) =
    toasts (ui w) ++
    [{| title := "Success";
        description := TransferCompleted (parseFloat (amount f));
        variant := None |}].
Proof.
  intros (H1 & H2 & H3 & H4 & H5) Hfind Hlt Hrej r. subst r.
  unfold handleTransfer.
  rewrite H1, H2, H3, H5, Hfind, Hlt. simpl.
  destruct (String.eqb_spec (fromAccount f) (toAccount f)); [contradiction|].
  unfold credit, try_catch_finally, mbind, M_bind, accounts_update,
    transactions_create, await, setIsLoading, modify_ui, Date_now. simpl.
  resolve_calls Hrej.
  destruct (find_account accounts (toAccount f)); resolve_calls Hrej; auto.
Qed.

(** Balances held by the database after the writes of a handler. *)

Lemma balance_of_update_eq (id : string) (b : number) (d : Db) :
  is_Some (accountsTable d !! id) ->
  balance_of (update_balance id b d) id = Some b.
Proof.
  intros [a Ha]. unfold balance_of, update_balance. simpl.
  now rewrite lookup_alter_eq, Ha.
Qed.

Lemma balance_of_update_ne (id id' : string) (b : number) (d : Db) :
  id <> id' -> balance_of (update_balance id b d) id' = balance_of d id'.
Proof.
  intros Hne. unfold balance_of, update_balance. simpl.
  now rewrite lookup_alter_ne.
Qed.

Lemma update_keeps_records (id id' : string) (b : number) (d : Db) :
  is_Some (accountsTable d !! id') ->
  is_Some (accountsTable (update_balance id b d) !! id').
Proof.
  intros H. unfold update_balance. simpl.
  destruct (decide (id = id')) as [->|Hne].
  - rewrite lookup_alter_eq. destruct H as [a ->]. now eexists.
  - now rewrite lookup_alter_ne.
Qed.

(** C8. Scenario A: with 100.00 on the source and 50.00 on the destination,
    a transfer of 30.00 that passes validation, whose database calls all
    resolve, leaves 70.00 and 80.00 and appends exactly one transaction
    record, of status [completed] and amount 30.00. *)
Theorem transfer_scenario_A
    (accounts : list Account) (f : Form) (w : World) (x y : Account) :
  falsy (fromAccount f) = false -> falsy (toAccount f) = false ->
  fromAccount f <> toAccount f ->
  amount f = "30.00" ->
  find_account accounts (fromAccount f) = Some x -> acc_balance x = 100%float ->
  find_account accounts (toAccount f) = Some y -> acc_balance y = 50%float ->
  is_Some (accountsTable (db w) !! fromAccount f) ->
  is_Some (accountsTable (db w) !! toAccount f) ->
  no_rejection w ->
  let w' := (handleTransfer accounts f w).2 in
  balance_of (db w') (fromAccount f) = Some 70%float /\
  balance_of (db w') (toAccount f) = Some 80%float /\
  exists t,
    transactionsTable (db w') = transactionsTable (db w) ++ [t] /\
    tx_status t = "completed" /\ tx_amount t = 30%float /\
    tx_transactionType t = "transfer" /\
    tx_fromAccountId t = Some (fromAccount f) /\
    tx_toAccountId t = Some (toAccount f).
Proof.
  intros H1 H2 Hne Hamt Hx Bx Hy By Sx Sy Hrej w'.
  assert (P : parseFloat (amount f) = 30%float) by now rewrite Hamt.
  destruct (handleTransfer_completes accounts f w x) as (_ & Hdb & _); auto.
  { repeat split; auto; now rewrite ?P, ?Hamt. }
  { now rewrite P, Bx. }
  subst w'. rewrite Hdb. unfold credit. rewrite Hy, P, Bx, By.
  change (100 - 30)%float with 70%float. change (50 + 30)%float with 80%float.
  split; [|split].
  - rewrite balance_of_update_ne by congruence.
    now apply balance_of_update_eq.
  - apply balance_of_update_eq. now apply update_keeps_records.
  - eexists. simpl. split; [reflexivity|]. simpl. now rewrite P.
Qed.

(** C8 at X and Y alone in the list and in the database. *)
Lemma transfer_scenario_A_witness :
  let w := world (store [X100; Y50]) 1700000000000 in
  let w' := (handleTransfer [X100; Y50] form_30 w).2 in
  no_rejection w /\
  balance_of (db w') "X" = Some 70%float /\
  balance_of (db w') "Y" = Some 80%float /\
  exists t,
    transactionsTable (db w') = transactionsTable (db w) ++ [t] /\
    tx_status t = "completed" /\ tx_amount t = 30%float /\
    tx_transactionType t = "transfer" /\
    tx_fromAccountId t = Some "X" /\ tx_toAccountId t = Some "Y".
Proof.
  intros w w'. split; [intros n; reflexivity|].
  apply (transfer_scenario_A [X100; Y50] form_30 w X100 Y50);
    try reflexivity; try discriminate.
  - vm_compute. eauto.
  - vm_compute. eauto.
  - intros n. reflexivity.
Defined.

(** C9. A transfer of exactly the balance of the source account is not
    rejected: the funds check is a strict [<]. With all database calls
    resolving it completes, the record is appended, and the source is left
    with exactly 0. The balance is a finite number. *)
Theorem transfer_of_whole_balance
    (accounts : list Account) (f : Form) (w : World) (sourceAccount : Account) :
  passes_validation f ->
  find_account accounts (fromAccount f) = Some sourceAccount ->
  acc_balance sourceAccount = parseFloat (amount f) ->
  isFinite (acc_balance sourceAccount) = true ->
  is_Some (accountsTable (db w) !! fromAccount f) ->
  no_rejection w ->
  let r := handleTransfer accounts f w in
  (acc_balance sourceAccount <? parseFloat (amount f))%float = false /\
  r.1 = Normal tt /\
  toasts (ui r.2) =
    toasts (ui w) ++
    [{| title := "Success";
        description := TransferCompleted (parseFloat (amount f));
        variant := None |}] /\
  balance_of (db r.2) (fromAccount f) = Some 0%float /\
  length (transactionsTable (db r.2)) = S (length (transactionsTable (db w))).
Proof.
  intros V Hfind Heq Hfin Hsome Hrej r.
  assert (Hlt : (acc_balance sourceAccount <? parseFloat (amount f))%float = false).
  { rewrite <- Heq. now apply ltb_irrefl_finite. }
  destruct (handleTransfer_completes accounts f w sourceAccount)
    as (Hr & Hdb & Ht); auto.
  subst r. rewrite Hdb, Ht, Hr. repeat split; auto.
  - unfold credit. rewrite <- Heq, sub_diag_finite by exact Hfin.
    destruct V as (_ & _ & _ & Hne & _).
    destruct (find_account accounts (toAccount f)).
    + rewrite balance_of_update_ne by congruence.
      now apply balance_of_update_eq.
    + now apply balance_of_update_eq.
  - unfold credit.
    destruct (find_account accounts (toAccount f)); simpl;
      rewrite length_app; simpl; lia.
Qed.

(** C9 at a request for the 100 that X holds. *)
Lemma transfer_of_whole_balance_witness :
  let w := world (store [X100; Y50]) 1700000000000 in
  let r := handleTransfer [X100; Y50] form_100_all w in
  acc_balance X100 = parseFloat (amount form_100_all) /\
  r.1 = Normal tt /\
  balance_of (db r.2) "X" = Some 0%float.
Proof.
  intros w r.
  destruct (transfer_of_whole_balance [X100; Y50] form_100_all w X100)
    as (_ & Hr & _ & Hb & _).
  - repeat split; try reflexivity; discriminate.
  - reflexivity.
  - reflexivity.
  - reflexivity.
  - vm_compute. eauto.
  - intros n. reflexivity.
  - split; [reflexivity|]. split; [exact Hr | exact Hb].
Defined.

(** ** A destination that is not in the account list *)

(** Without the credit leg, a completed transfer debits the source and
    touches no other balance. *)
Lemma transfer_unlisted_destination
    (accounts : list Account) (f : Form) (w : World) (sourceAccount : Account) :
  passes_validation f ->
  find_account accounts (fromAccount f) = Some sourceAccount ->
  (acc_balance sourceAccount <? parseFloat (amount f))%float = false ->
  find_account accounts (toAccount f) = None ->
  no_rejection w ->
  let r := handleTransfer accounts f w in
  accountsTable (db r.2) =
    alter (set_balance (acc_balance sourceAccount - parseFloat (amount f))%float)
      (fromAccount f) (accountsTable (db w)) /\
  balance_of (db r.2) (toAccount f) = balance_of (db w) (toAccount f).
Proof.
  intros V Hfind Hlt Hnone Hrej r.
  destruct (handleTransfer_completes accounts f w sourceAccount)
    as (_ & Hdb & _); auto.
  subst r. rewrite Hdb. unfold credit. rewrite Hnone. split; [reflexivity|].
  destruct V as (_ & _ & _ & Hne & _).
  now rewrite balance_of_update_ne.
Qed.

(** C1. The database holds X with 100.00 and Y with 50.00, the account list
    handed to the form holds X only, and 30.00 is sent from X to Y. The
    request passes validation and is reported as a success with a
    [completed] record, X is debited to 70.00 and Y is not credited: the two
    balances sum to 120.00 where they summed to 150.00. *)
Theorem transfer_unlisted_destination_not_conserved :
  let w := world (store [X100; Y50]) 1700000000000 in
  let r := handleTransfer [X100] form_30 w in
  passes_validation form_30 /\
  find_account [X100] (toAccount form_30) = None /\
  balance_of (db w) "X" = Some 100%float /\
  balance_of (db w) "Y" = Some 50%float /\
  r.1 = Normal tt /\
  map title (toasts (ui r.2)) = ["Success"] /\
  map tx_status (transactionsTable (db r.2)) = ["completed"] /\
  balance_of (db r.2) "X" = Some 70%float /\
  balance_of (db r.2) "Y" = Some 50%float /\
  (70 + 50)%float = 120%float /\ (100 + 50)%float = 150%float.
Proof.
  intros w r.
  split; [repeat split; try reflexivity; discriminate|].
  repeat split; vm_compute; reflexivity.
Qed.

(** ** Account status *)

Lemma find_account_relabel (g : Account -> string) (accounts : list Account)
    (id : string) :
  find_account (map (fun a => set_status (g a) a) accounts) id =
  (fun a => set_status (g a) a) <$> find_account accounts id.
Proof.
  unfold find_account. induction accounts as [|a l IH]; simpl; [reflexivity|].
  destruct (String.eqb (acc_id a) id); [reflexivity | exact IH].
Qed.

(** C7 (as the code has it). [handleTransfer] never reads the status of an
    account: whatever statuses the listed accounts carry, the handler does
    the same thing, so a suspended or closed account is treated exactly as
    an active one. *)
Theorem transfer_ignores_status
    (g : Account -> string) (accounts : list Account) (f : Form) (w : World) :
  handleTransfer (map (fun a => set_status (g a) a) accounts) f w =
  handleTransfer accounts f w.
Proof.
  unfold handleTransfer. rewrite !find_account_relabel.
  destruct (falsy (fromAccount f) || falsy (toAccount f) || falsy (amount f));
    [reflexivity|].
  destruct (String.eqb (fromAccount f) (toAccount f)); [reflexivity|].
  destruct (parseFloat (amount f) <=? 0)%float; [reflexivity|].
  destruct (find_account accounts (fromAccount f)) as [src|]; [|reflexivity].
  simpl. destruct (acc_balance src <? parseFloat (amount f))%float;
    [reflexivity|].
  destruct (find_account accounts (toAccount f)); reflexivity.
Qed.

(** C7, counterexample. A suspended source and a closed destination: the
    transfer is not refused. It completes, both balances move and a
    [completed] record is created. *)
Lemma transfer_from_suspended_account_completes :
  let w := world (store [X100_suspended; Y50_closed]) 1700000000000 in
  let r := handleTransfer [X100_suspended; Y50_closed] form_30 w in
  acc_status X100_suspended = "suspended" /\
  acc_status Y50_closed = "closed" /\
  r.1 = Normal tt /\
  map title (toasts (ui r.2)) = ["Success"] /\
  balance_of (db w) "X" = Some 100%float /\
  balance_of (db r.2) "X" = Some 70%float /\
  balance_of (db w) "Y" = Some 50%float /\
  balance_of (db r.2) "Y" = Some 80%float /\
  transactionsTable (db w) = [] /\
  map tx_status (transactionsTable (db r.2)) = ["completed"].
Proof.
  intros w r. repeat split; vm_compute; reflexivity.
Qed.

(** ** Reference numbers *)

Lemma toString_inj (a b : Z) : toString a = toString b -> a = b.
Proof.
  unfold toString. intros H. apply DecimalZ.to_int_inj.
  assert (N : forall z, NilZero.int_of_string (NilZero.string_of_int (Z.to_int z))
                        = Some (Z.to_int z)).
  { intros z. apply NilZero.isi; destruct z; simpl; try discriminate;
      intros [= E]; now apply (Unsigned.to_uint_nonnil p). }
  apply (f_equal NilZero.int_of_string) in H. rewrite !N in H. congruence.
Qed.

Lemma append_inj_r (p s t : string) : p +:+ s = p +:+ t -> s = t.
Proof. induction p as [|c p IH]; simpl; [auto | intros [= H]; auto]. Qed.

(** C5 (as the code has it). A reference number is its prefix followed by
    the reading of [Date.now()] and nothing else: two transfer references,
    and two interest references, are equal exactly when the two clock
    readings are. Calls in different milliseconds give different values;
    calls in the same millisecond give the same value. *)
Theorem reference_numbers_equal_iff_same_reading
    (f f' : Form) (a a' : Account) (i i' : number) (t t' n n' : Z) :
  (tx_referenceNumber (transferRecord f t n) =
   tx_referenceNumber (transferRecord f' t' n') <-> t = t') /\
  (tx_referenceNumber (interestTransaction a i n t) =
   tx_referenceNumber (interestTransaction a' i' n' t') <-> t = t').
Proof.
  simpl. split; split; intros H; try (now subst);
    apply toString_inj; exact (append_inj_r _ _ _ H).
Qed.

(** C5, counterexample. One run of the interest handler over two eligible
    accounts, all within one millisecond: two reference numbers are
    generated and the two are the same. *)
Lemma interest_run_repeats_reference_number :
  let w := world (store [Y50; Z1000]) 1700000000000 in
  let r := handleApplyInterest [Y50; Z1000] w in
  map tx_toAccountId (transactionsTable (db r.2)) = [Some "Y"; Some "Z"] /\
  map tx_referenceNumber (transactionsTable (db r.2)) =
    ["INT1700000000000"; "INT1700000000000"].
Proof.
  intros w r. split; vm_compute; reflexivity.
Qed.

(** ** Interest posting *)

Lemma batch_recipients (clk : nat -> Z) (t : nat) (l : list Account) :
  map tx_toAccountId (batch clk t l) =
  map (fun a => Some (acc_id a)) (List.filter posts l).
Proof.
  revert t. induction l as [|a l IH]; intros t; simpl; [reflexivity|].
  destruct (posts a); simpl; now rewrite IH.
Qed.

Lemma batch_amounts (clk : nat -> Z) (t : nat) (l : list Account) :
  map tx_amount (batch clk t l) =
  map (fun a => calculateInterest a monthly) (List.filter posts l).
Proof.
  revert t. induction l as [|a l IH]; intros t; simpl; [reflexivity|].
  destruct (posts a); simpl; now rewrite IH.
Qed.

Lemma applyEach_completes (l : list Account) (total : number) (w : World) :
  no_rejection w ->
  let r := applyEach l total w in
  (exists total', r.1 = Normal total') /\
  transactionsTable (db r.2) =
    transactionsTable (db w) ++ batch (clock w) (ticks w) l /\
  accountsTable (db r.2) = credited l (accountsTable (db w)) /\
  rejects r.2 = rejects w /\ clock r.2 = clock w /\ ui r.2 = ui w.
Proof.
  revert total w. induction l as [|a l IH]; intros total w Hrej; simpl.
  - rewrite app_nil_r. repeat split; eauto.
  - fold (posts a). destruct (posts a); [|now apply IH].
    unfold mbind, M_bind, accounts_update, transactions_create, await,
      Date_now. resolve_calls Hrej.
    match goal with
    | |- context [applyEach l ?t ?w1] =>
        destruct (IH t w1) as (Ht & Htx & Hacc & Hr & Hc & Hu);
          [exact Hrej|]
    end.
    simpl in *. rewrite Htx, Hacc, Hr, Hc, Hu, <- app_assoc.
    repeat split; auto.
Qed.

(** A part of the world that the continuation, the [catch] block and the
    [finally] block leave alone is, after the whole [try] statement, what
    the guarded body made of it. *)
Lemma try_catch_finally_frame {T A : Type} (part : World -> T)
    (body : M A) (k : A -> M unit) (handler final : M unit) (w : World) :
  (forall a w0, part (k a w0).2 = part w0) ->
  (forall w0, part (handler w0).2 = part w0) ->
  (forall w0, part (final w0).2 = part w0) ->
  part (try_catch_finally (body ≫= k) handler final w).2 = part (body w).2.
Proof.
  intros Hk Hh Hf. unfold try_catch_finally, mbind, M_bind.
  destruct (body w) as [[a|] wb]; simpl.
  - specialize (Hk a wb). destruct (k a wb) as [[u|] wk]; simpl in *.
    + specialize (Hf wk). destruct (final wk) as [[v|] wf]; simpl in *;
        congruence.
    + specialize (Hh wk). destruct (handler wk) as [r wh]. simpl in *.
      specialize (Hf wh). destruct (final wh) as [[v|] wf]; simpl in *;
        congruence.
  - specialize (Hh wb). destruct (handler wb) as [r wh]. simpl in *.
    specialize (Hf wh). destruct (final wh) as [[v|] wf]; simpl in *;
      congruence.
Qed.

(** The handler writes what its loop writes. *)
Lemma handleApplyInterest_frame {T : Type} (part : World -> T)
    (accounts : list Account) (w : World) :
  (forall u w0, part (with_ui u w0) = part w0) ->
  part (handleApplyInterest accounts w).2 =
  part (applyEach (interestEligibleAccounts accounts) 0%float
          (setIsCalculating true w).2).2.
Proof.
  intros Hui. unfold handleApplyInterest.
  destruct (interestEligibleAccounts accounts) as [|a l] eqn:E.
  - simpl. now rewrite !Hui.
  - unfold mbind at 1. unfold M_bind at 1. cbn [setIsCalculating modify_ui].
    cbn beta iota. apply try_catch_finally_frame; intros; simpl; now rewrite ?Hui.
Qed.

Lemma handleApplyInterest_db (accounts : list Account) (w : World) :
  db (handleApplyInterest accounts w).2 =
  db (applyEach (interestEligibleAccounts accounts) 0%float
        (setIsCalculating true w).2).2.
Proof. now apply handleApplyInterest_frame. Qed.

Lemma handleApplyInterest_rejects (accounts : list Account) (w : World) :
  no_rejection w -> no_rejection (handleApplyInterest accounts w).2.
Proof.
  intros Hrej. unfold no_rejection.
  rewrite (handleApplyInterest_frame rejects) by reflexivity.
  destruct (applyEach_completes (interestEligibleAccounts accounts) 0%float
              (setIsCalculating true w).2) as (_ & _ & _ & Hr & _);
    [exact Hrej|].
  cbv zeta in Hr. rewrite Hr. exact Hrej.
Qed.

Lemma handleApplyInterest_completes (accounts : list Account) (w : World) :
  no_rejection w ->
  let w' := (handleApplyInterest accounts w).2 in
  transactionsTable (db w') =
    transactionsTable (db w) ++
    batch (clock w) (ticks w) (interestEligibleAccounts accounts) /\
  accountsTable (db w') =
    credited (interestEligibleAccounts accounts) (accountsTable (db w)).
Proof.
  intros Hrej w'. subst w'. rewrite handleApplyInterest_db.
  destruct (applyEach_completes (interestEligibleAccounts accounts) 0%float
              (setIsCalculating true w).2) as (_ & Htx & Hacc & _);
    [exact Hrej|].
  split; [exact Htx | exact Hacc].
Qed.

(** C2 (as the code has it). An account record carries no accrual period
    and the handler keeps none: every invocation whose database calls
    resolve appends one interest record for each eligible account whose
    computed interest is [> 0], and writes that account's balance as its
    listed balance plus the interest, whatever was posted before. Two
    invocations in a row post twice. *)
Theorem interest_posted_at_every_invocation
    (accounts accounts' : list Account) (w : World) :
  no_rejection w ->
  let w1 := (handleApplyInterest accounts w).2 in
  let w2 := (handleApplyInterest accounts' w1).2 in
  map tx_toAccountId (transactionsTable (db w1)) =
    map tx_toAccountId (transactionsTable (db w)) ++
    map (fun a => Some (acc_id a)) (due accounts) /\
  map tx_toAccountId (transactionsTable (db w2)) =
    map tx_toAccountId (transactionsTable (db w)) ++
    map (fun a => Some (acc_id a)) (due accounts) ++
    map (fun a => Some (acc_id a)) (due accounts') /\
  accountsTable (db w2) =
    credited (interestEligibleAccounts accounts')
      (credited (interestEligibleAccounts accounts) (accountsTable (db w))).
Proof.
  intros Hrej w1 w2.
  destruct (handleApplyInterest_completes accounts w Hrej) as (H1 & A1).
  destruct (handleApplyInterest_completes accounts' w1) as (H2 & A2).
  { now apply handleApplyInterest_rejects. }
  fold w1 in H1, A1. fold w2 in H2, A2.
  rewrite A2, A1, H2, H1, !map_app, !batch_recipients, <- app_assoc. auto.
Qed.

(** C2 (as the code has it) at Scenario C, run twice. *)
Lemma interest_posted_at_every_invocation_witness :
  let w := world (store [Z1000]) 1700000000000 in
  let w1 := (handleApplyInterest [Z1000] w).2 in
  let w2 := (handleApplyInterest [Z1000] w1).2 in
  no_rejection w /\
  map tx_toAccountId (transactionsTable (db w2)) = [Some "Z"; Some "Z"].
Proof.
  intros w w1 w2. split; [intros n; reflexivity|].
  destruct (interest_posted_at_every_invocation [Z1000] [Z1000] w)
    as (_ & H & _).
  - intros n. reflexivity.
  - exact H.
Defined.

(** C2, counterexample. Two invocations in the same period, the second one
    on the account list reloaded from the database: nothing is skipped,
    interest is credited twice and two interest records exist for the
    account. *)
Lemma interest_applied_twice_in_one_period :
  let w := world (store [Z1000]) 1700000000000 in
  let w1 := (handleApplyInterest [Z1000] w).2 in
  let reloaded := mkAccount "Z" "savings" 1002 "active" (Some "2.40%") in
  let w2 := (handleApplyInterest [reloaded] w1).2 in
  accountsTable (db w1) !! "Z" = Some reloaded /\
  map tx_transactionType (transactionsTable (db w1)) = ["interest"] /\
  map tx_transactionType (transactionsTable (db w2)) = ["interest"; "interest"] /\
  map tx_toAccountId (transactionsTable (db w2)) = [Some "Z"; Some "Z"] /\
  balance_of (db w) "Z" = Some 1000%float /\
  balance_of (db w1) "Z" = Some 1002%float /\
  (1002 <? default 0%float (balance_of (db w2) "Z"))%float = true.
Proof.
  intros w w1 reloaded w2. repeat split; vm_compute; reflexivity.
Qed.

(** The amount of every record of a run is the unrounded product. *)
Lemma calculateInterest_monthly (account : Account) :
  calculateInterest account monthly =
  (acc_balance account * (parseFloat (rateText account) / 100) * (1 / 12))%float.
Proof. reflexivity. Qed.

(** C6 (as the code has it). The interest posted for a month is the
    binary64 product [balance * (rate / 100) * (1 / 12)], with the rate
    parsed from the account's percentage text; it is not rounded to cents,
    and it is posted whenever it is [> 0]. For a balance of 1000.00 at
    2.40% the product is exactly 2. *)
Theorem interest_amount_posted (accounts : list Account) (w : World) :
  no_rejection w ->
  let w' := (handleApplyInterest accounts w).2 in
  (exists posted,
     transactionsTable (db w') = transactionsTable (db w) ++ posted /\
     map tx_toAccountId posted = map (fun a => Some (acc_id a)) (due accounts) /\
     map tx_amount posted =
       map (fun a =>
              (acc_balance a * (parseFloat (rateText a) / 100) * (1 / 12))%float)
           (due accounts)) /\
  (forall a, acc_balance a = 1000%float -> acc_interestRate a = Some "2.40%" ->
             calculateInterest a monthly = 2%float).
Proof.
  intros Hrej w'. split.
  - destruct (handleApplyInterest_completes accounts w Hrej) as (Htx & _).
    eexists. split; [exact Htx|].
    now rewrite batch_recipients, batch_amounts.
  - intros a Hb Hr. unfold calculateInterest, rateOf, rateText.
    rewrite Hb, Hr. reflexivity.
Qed.

(** C6 (as the code has it) at Scenario C. *)
Lemma interest_amount_posted_witness :
  let w := world (store [Z1000]) 1700000000000 in
  let w' := (handleApplyInterest [Z1000] w).2 in
  no_rejection w /\
  exists posted,
    transactionsTable (db w') = transactionsTable (db w) ++ posted /\
    map tx_amount posted = [2%float].
Proof.
  intros w w'. split; [intros n; reflexivity|].
  destruct (interest_amount_posted [Z1000] w) as ((posted & Htx & _ & Ha) & _).
  - intros n. reflexivity.
  - exists posted. split; [exact Htx|]. rewrite Ha. reflexivity.
Defined.

(** C6, counterexample. A balance of 100.01 at 2.5%: the amount posted lies
    strictly between 0.20 and 0.21, so it is not a whole number of cents;
    rounding to cents would post 0.21. *)
Lemma interest_posted_is_not_rounded_to_cents :
  let w := world (store [W100_01]) 1700000000000 in
  let w' := (handleApplyInterest [W100_01] w).2 in
  eligible W100_01 = true /\
  exists t,
    transactionsTable (db w') = [t] /\
    tx_transactionType t = "interest" /\
    tx_amount t = parseFloat "0.20835416666666667" /\
    (parseFloat "0.20" <? tx_amount t)%float = true /\
    (tx_amount t <? parseFloat "0.21")%float = true /\
    tx_amount t <> parseFloat "0.21".
Proof.
  intros w w'. split; [reflexivity|]. eexists.
  split; [vm_compute; reflexivity|].
  repeat split; try (vm_compute; reflexivity).
  intros H.
  apply (f_equal (fun x => (x <? parseFloat "0.21")%float)) in H.
  vm_compute in H. discriminate.
Qed.

(** ** Accounts that earn nothing *)

Lemma absent_rate_parses_to_zero (account : Account) :
  acc_interestRate account = None ->
  (parseFloat (rateText account) =? 0)%float = true.
Proof. unfold rateText. now intros ->. Qed.

Lemma zero_rate_posts_nothing (account : Account) :
  (parseFloat (rateText account) =? 0)%float = true -> posts account = false.
Proof.
  rewrite eqb_zero. intros H. apply gtb_zero_or_nan.
  unfold calculateInterest, rateOf.
  apply mul_zero_or_nan_l, mul_zero_or_nan_r, is_zero_zero_or_nan.
  now apply div_100_is_zero.
Qed.

Lemma zero_balance_posts_nothing (account : Account) :
  (acc_balance account =? 0)%float = true -> posts account = false.
Proof.
  rewrite eqb_zero. intros H. apply gtb_zero_or_nan.
  unfold calculateInterest.
  now apply mul_zero_or_nan_l, mul_zero_or_nan_l, is_zero_zero_or_nan.
Qed.

Lemma monthly_multiplier_finite : isFinite (periodMultiplier monthly) = true.
Proof. reflexivity. Qed.

Lemma zero_rate_zero_interest (account : Account) :
  (parseFloat (rateText account) =? 0)%float = true ->
  isFinite (acc_balance account) = true ->
  (calculateInterest account monthly =? 0)%float = true.
Proof.
  rewrite !eqb_zero. intros H Hfin. unfold calculateInterest, rateOf.
  apply mul_is_zero_l; [|exact monthly_multiplier_finite].
  apply mul_is_zero_r; [exact Hfin|]. now apply div_100_is_zero.
Qed.

Lemma zero_balance_zero_interest (account : Account) :
  (acc_balance account =? 0)%float = true ->
  isFinite (rateOf account) = true ->
  (calculateInterest account monthly =? 0)%float = true.
Proof.
  rewrite !eqb_zero. intros H Hfin. unfold calculateInterest.
  apply mul_is_zero_l; [|exact monthly_multiplier_finite].
  now apply mul_is_zero_l.
Qed.

(** The loop leaves alone every id whose listed accounts post nothing,
    whichever database calls reject. *)
Lemma applyEach_leaves_alone (id : string) (l : list Account)
    (total : number) (w : World) :
  (forall a, In a l -> acc_id a = id -> posts a = false) ->
  let w' := (applyEach l total w).2 in
  accountsTable (db w') !! id = accountsTable (db w) !! id /\
  exists created,
    transactionsTable (db w') = transactionsTable (db w) ++ created /\
    Forall (fun t => tx_toAccountId t <> Some id) created.
Proof.
  revert total w. induction l as [|a l IH]; intros total w H; simpl.
  - split; [reflexivity|]. exists []. now rewrite app_nil_r.
  - assert (Hl : forall a0, In a0 l -> acc_id a0 = id -> posts a0 = false)
      by (intros a0 Ha0; apply H; now right).
    fold (posts a). destruct (posts a) eqn:P; [|now apply IH].
    assert (Hne : acc_id a <> id).
    { intros E. rewrite (H a) in P; [discriminate | now left | exact E]. }
    unfold mbind, M_bind, accounts_update, transactions_create, await,
      Date_now. simpl.
    destruct (rejects w (calls w)); simpl.
    { split; [reflexivity|]. exists []. now rewrite app_nil_r. }
    destruct (rejects w (S (calls w))); simpl.
    { split; [now rewrite lookup_alter_ne|]. exists [].
      now rewrite app_nil_r. }
    match goal with
    | |- context [applyEach l ?t ?w1] =>
        destruct (IH t w1 Hl) as (Hacc & created & Htx & Hall)
    end.
    simpl in *. rewrite Hacc, Htx, lookup_alter_ne by exact Hne.
    split; [reflexivity|]. eexists. rewrite <- app_assoc.
    split; [reflexivity|]. constructor; [|exact Hall]. simpl. congruence.
Qed.

Lemma unique_id (l : list Account) (a b : Account) :
  NoDup (map acc_id l) -> In a l -> In b l -> acc_id a = acc_id b -> a = b.
Proof.
  induction l as [|c l IH]; simpl; [tauto|].
  rewrite NoDup_cons. intros [Hc Hl] [->|Ha] [->|Hb] E; auto.
  - exfalso. apply Hc. rewrite E. apply list_elem_of_In. now apply in_map.
  - exfalso. apply Hc. rewrite <- E. apply list_elem_of_In. now apply in_map.
Qed.

(** C10. An eligible account whose rate is absent or parses to 0, or whose
    balance is 0, has a computed interest that is not [> 0]: it is 0 when the
    other operand is a finite number. The handler then neither changes the
    balance the database holds for the account nor creates a record for it,
    whichever database calls reject. Account ids are unique in the list. *)
Theorem zero_interest_not_posted
    (accounts : list Account) (account : Account) (w : World) :
  In account (interestEligibleAccounts accounts) ->
  NoDup (map acc_id accounts) ->
  acc_interestRate account = None \/
  (parseFloat (rateText account) =? 0)%float = true \/
  (acc_balance account =? 0)%float = true ->
  let w' := (handleApplyInterest accounts w).2 in
  gtb (calculateInterest account monthly) 0 = false /\
  (isFinite (acc_balance account) = true -> isFinite (rateOf account) = true ->
   (calculateInterest account monthly =? 0)%float = true) /\
  accountsTable (db w') !! acc_id account =
    accountsTable (db w) !! acc_id account /\
  exists created,
    transactionsTable (db w') = transactionsTable (db w) ++ created /\
    Forall (fun t => tx_toAccountId t <> Some (acc_id account)) created.
Proof.
  intros Hin Hdup Hzero w'.
  assert (P : posts account = false).
  { destruct Hzero as [H|[H|H]].
    - now apply zero_rate_posts_nothing, absent_rate_parses_to_zero.
    - now apply zero_rate_posts_nothing.
    - now apply zero_balance_posts_nothing. }
  split; [exact P|]. split.
  - intros Fb Fr. destruct Hzero as [H|[H|H]].
    + apply zero_rate_zero_interest; [|exact Fb].
      now apply absent_rate_parses_to_zero.
    + now apply zero_rate_zero_interest.
    + now apply zero_balance_zero_interest.
  - subst w'. rewrite handleApplyInterest_db.
    apply (applyEach_leaves_alone (acc_id account)
             (interestEligibleAccounts accounts) 0%float
             (setIsCalculating true w).2).
    intros a Ha E. unfold interestEligibleAccounts in Ha, Hin.
    apply filter_In in Ha, Hin.
    now rewrite (unique_id accounts a account Hdup (proj1 Ha) (proj1 Hin) E).
Qed.

(** C10 at a savings account with balance 0, listed between two others. *)
Lemma zero_interest_not_posted_witness :
  let accounts := [S0; Z1000; B500] in
  let w := world (store accounts) 1700000000000 in
  let w' := (handleApplyInterest accounts w).2 in
  In S0 (interestEligibleAccounts accounts) /\
  (acc_balance S0 =? 0)%float = true /\
  (calculateInterest S0 monthly =? 0)%float = true /\
  balance_of (db w') "S" = balance_of (db w) "S" /\
  map tx_toAccountId (transactionsTable (db w')) = [Some "Z"].
Proof.
  intros accounts w w'.
  destruct (zero_interest_not_posted accounts S0 w)
    as (_ & Hz & Hacc & _).
  - vm_compute. auto.
  - simpl.
    repeat (constructor 2;
            [rewrite list_elem_of_In; simpl; intuition discriminate|]).
    constructor 1.
  - right. right. reflexivity.
  - split; [vm_compute; auto|]. split; [reflexivity|].
    split; [apply Hz; reflexivity|].
    split; [exact (f_equal (fmap acc_balance) Hacc)|].
    vm_compute. reflexivity.
Defined.

(** * Further properties of the handlers *)

(** ** [handleTransfer] under every pattern of rejections *)

(** Unfolds the effects of a handler down to the oracle's answers. *)
Ltac run_effects :=
  unfold try_catch_finally, mbind, M_bind, mret, M_ret, accounts_update,
    transactions_create, await, setIsLoading, setIsCalculating, setForm,
    toast, refresh, modify_ui, Date_now, with_ui;
  simpl.

Ltac split_rejections :=
  repeat match goal with
    | |- context [if rejects ?w ?n then _ else _] =>
        let R := fresh "R" in destruct (rejects w n) eqn:R; simpl
    end.

(** X1. Whatever the inputs and whichever database calls reject,
    [handleTransfer] returns normally (no rejection escapes the handler),
    shows exactly one toast, and does not leave the form in its loading
    state. *)
Theorem handleTransfer_always_completes
    (accounts : list Account) (f : Form) (w : World) :
  let r := handleTransfer accounts f w in
  r.1 = Normal tt /\
  length (toasts (ui r.2)) = S (length (toasts (ui w))) /\
  (isLoading (ui w) = false -> isLoading (ui r.2) = false).
Proof.
  unfold handleTransfer.
  destruct (falsy (fromAccount f) || falsy (toAccount f) || falsy (amount f));
    [simpl; rewrite length_app; simpl; repeat split; auto; lia|].
  destruct (String.eqb (fromAccount f) (toAccount f));
    [simpl; rewrite length_app; simpl; repeat split; auto; lia|].
  destruct (parseFloat (amount f) <=? 0)%float;
    [simpl; rewrite length_app; simpl; repeat split; auto; lia|].
  destruct (find_account accounts (fromAccount f)) as [src|];
    [|simpl; rewrite length_app; simpl; repeat split; auto; lia].
  destruct (acc_balance src <? parseFloat (amount f))%float;
    [simpl; rewrite length_app; simpl; repeat split; auto; lia|].
  run_effects. split_rejections;
    try (destruct (find_account accounts (toAccount f)); simpl;
         split_rejections);
    rewrite length_app; simpl; repeat split; auto; lia.
Qed.

(** The database after [handleTransfer]: as it was, or with the record, or
    with the record and the debit, or with the record and both legs. *)
Lemma handleTransfer_db (accounts : list Account) (f : Form) (w : World) :
  let d := db (handleTransfer accounts f w).2 in
  d = db w \/
  exists src,
    passes_validation f /\
    find_account accounts (fromAccount f) = Some src /\
    let d1 :=
      create_transaction
        (transferRecord f (clock w (ticks w)) (clock w (S (ticks w)))) (db w) in
    let d2 :=
      update_balance (fromAccount f)
        (acc_balance src - parseFloat (amount f))%float d1 in
    d = d1 \/ d = d2 \/
    exists tgt, find_account accounts (toAccount f) = Some tgt /\
      d = update_balance (toAccount f)
            (acc_balance tgt + parseFloat (amount f))%float d2.
Proof.
  unfold handleTransfer.
  destruct (falsy (fromAccount f)) eqn:H1; [now left|].
  destruct (falsy (toAccount f)) eqn:H2; [now left|].
  destruct (falsy (amount f)) eqn:H3; [now left|]. simpl.
  destruct (String.eqb_spec (fromAccount f) (toAccount f)) as [|H4];
    [now left|].
  destruct (parseFloat (amount f) <=? 0)%float eqn:H5; [now left|].
  destruct (find_account accounts (fromAccount f)) as [src|] eqn:Hs;
    [|now left].
  destruct (acc_balance src <? parseFloat (amount f))%float; [now left|].
  assert (V : passes_validation f) by (repeat split; assumption).
  run_effects. split_rejections; [now left| |].
  - right. exists src. split; [exact V|]. split; [reflexivity|]. now left.
  - right. exists src. split; [exact V|]. split; [reflexivity|].
    destruct (find_account accounts (toAccount f)) as [tgt|] eqn:Ht; simpl;
      split_rejections.
    + right. now left.
    + right. right. now exists tgt.
    + right. now left.
Qed.

Lemma same_but_balances_refl (d : Db) : same_but_balances d d.
Proof.
  intros id. destruct (accountsTable d !! id) as [a|]; [|exact I].
  now destruct a.
Qed.

Lemma same_but_balances_update (d d' : Db) (id : string) (b : number) :
  same_but_balances d d' -> same_but_balances d (update_balance id b d').
Proof.
  intros H i. specialize (H i). unfold update_balance. simpl.
  destruct (decide (id = i)) as [->|Hne].
  - rewrite lookup_alter_eq.
    destruct (accountsTable d !! i) as [a|], (accountsTable d' !! i) as [a'|];
      simpl; try exact H. rewrite H. reflexivity.
  - now rewrite lookup_alter_ne.
Qed.

Lemma same_but_balances_create (d d' : Db) (t : Transaction) :
  same_but_balances d d' -> same_but_balances d (create_transaction t d').
Proof. intros H i. exact (H i). Qed.

(** X2. A transfer changes nothing of the accounts but balances: whichever
    database calls reject, it neither creates nor removes an account, every
    account keeps all its other fields, and an account that is neither the
    source nor the destination keeps its balance too. *)
Theorem transfer_touches_only_balances
    (accounts : list Account) (f : Form) (w : World) :
  let d' := db (handleTransfer accounts f w).2 in
  same_but_balances (db w) d' /\
  forall id, id <> fromAccount f -> id <> toAccount f ->
             accountsTable d' !! id = accountsTable (db w) !! id.
Proof.
  intros d'. subst d'.
  destruct (handleTransfer_db accounts f w)
    as [->|(src & _ & _ & [->|[->|(tgt & _ & ->)]])].
  - split; [apply same_but_balances_refl | reflexivity].
  - split; [apply same_but_balances_create, same_but_balances_refl
           | reflexivity].
  - split.
    + apply same_but_balances_update, same_but_balances_create,
        same_but_balances_refl.
    + intros id Hf Ht. simpl. now rewrite lookup_alter_ne.
  - split.
    + apply same_but_balances_update, same_but_balances_update,
        same_but_balances_create, same_but_balances_refl.
    + intros id Hf Ht. simpl. now rewrite !lookup_alter_ne.
Qed.

Lemma transferRecord_ok (f : Form) (now1 now2 : Z) :
  passes_validation f -> transfer_record_ok (transferRecord f now1 now2).
Proof.
  intros (H1 & H2 & H3 & H4 & H5). repeat split; try assumption.
  exists (fromAccount f), (toAccount f). repeat split; try assumption.
  - intros E. rewrite E in H1. discriminate.
  - intros E. rewrite E in H2. discriminate.
Qed.

(** X3. The transaction table is append-only under [handleTransfer]:
    whichever database calls reject, the records present stay as they are
    and at most one record is added; that record is a [completed] transfer
    between two different, non-empty account ids with an amount that is not
    [<= 0]. *)
Theorem transfer_appends_at_most_one_record
    (accounts : list Account) (f : Form) (w : World) :
  exists created,
    transactionsTable (db (handleTransfer accounts f w).2) =
      transactionsTable (db w) ++ created /\
    (length created <= 1)%nat /\
    Forall transfer_record_ok created.
Proof.
  destruct (handleTransfer_db accounts f w)
    as [->|(src & V & _ & [->|[->|(tgt & _ & ->)]])].
  - exists []. rewrite app_nil_r. repeat split; auto.
  - eexists [_]. simpl. repeat split; auto.
    constructor; [now apply transferRecord_ok | constructor].
  - eexists [_]. simpl. repeat split; auto.
    constructor; [now apply transferRecord_ok | constructor].
  - eexists [_]. simpl. repeat split; auto.
    constructor; [now apply transferRecord_ok | constructor].
Qed.

(** ** [handleTransfer]: edge inputs *)

(** X4. When the source id is not in the account list handed to the form,
    a request that passed the earlier checks is turned down with the
    insufficient-funds message, and nothing is written. *)
Theorem transfer_unlisted_source_rejected
    (accounts : list Account) (f : Form) (w : World) :
  passes_validation f ->
  find_account accounts (fromAccount f) = None ->
  handleTransfer accounts f w =
    toast (errorToast "Insufficient funds in source account") w /\
  db (handleTransfer accounts f w).2 = db w /\
  calls (handleTransfer accounts f w).2 = calls w.
Proof.
  intros (H1 & H2 & H3 & H4 & H5) Hnone. unfold handleTransfer.
  rewrite H1, H2, H3, H5, Hnone. simpl.
  destruct (String.eqb_spec (fromAccount f) (toAccount f)); [contradiction|].
  auto.
Qed.

(** X4 at a list that holds Y only. *)
Lemma transfer_unlisted_source_rejected_witness :
  passes_validation form_30 /\
  find_account [Y50] (fromAccount form_30) = None /\
  db (handleTransfer [Y50] form_30
        (world (store [X100; Y50]) 1700000000000)).2 =
  store [X100; Y50].
Proof.
  assert (V : passes_validation form_30).
  { repeat split; try reflexivity; discriminate. }
  split; [exact V|]. split; [reflexivity|].
  now apply (transfer_unlisted_source_rejected [Y50] form_30
               (world (store [X100; Y50]) 1700000000000)).
Defined.

Lemma ltb_nan_r (x : number) : (x <? nan)%float = false.
Proof.
  rewrite ltb_spec. change (Prim2SF nan) with S754_nan.
  now destruct (Prim2SF x).
Qed.

Lemma sub_nan_r (x : number) : (x - nan)%float = nan.
Proof.
  apply Prim2SF_inj. rewrite sub_spec. change (Prim2SF nan) with S754_nan.
  now destruct (Prim2SF x).
Qed.

(** X5. An amount that does not parse to a number is not turned down by the
    handler's checks: [NaN <= 0] and [balance < NaN] are both false. With
    the fields filled in, two different accounts, the source listed and
    every database call resolving, the transfer is reported as a success, a
    record with amount [NaN] is created and the source balance is written
    as [NaN]. *)
Theorem transfer_of_unparsable_amount
    (accounts : list Account) (f : Form) (w : World) (src : Account) :
  falsy (fromAccount f) = false -> falsy (toAccount f) = false ->
  falsy (amount f) = false -> fromAccount f <> toAccount f ->
  parseFloat (amount f) = nan ->
  find_account accounts (fromAccount f) = Some src ->
  is_Some (accountsTable (db w) !! fromAccount f) ->
  no_rejection w ->
  let r := handleTransfer accounts f w in
  map title (toasts (ui r.2)) = map title (toasts (ui w)) ++ ["Success"] /\
  balance_of (db r.2) (fromAccount f) = Some nan /\
  exists t,
    transactionsTable (db r.2) = transactionsTable (db w) ++ [t] /\
    tx_amount t = nan /\ tx_status t = "completed".
Proof.
  intros H1 H2 H3 H4 Hnan Hfind Hsome Hrej r.
  destruct (handleTransfer_completes accounts f w src) as (_ & Hdb & Ht); auto.
  { repeat split; auto. now rewrite Hnan. }
  { rewrite Hnan. apply ltb_nan_r. }
  subst r. rewrite Hdb, Ht, map_app. split; [reflexivity|]. split.
  - unfold credit. rewrite Hnan, sub_nan_r.
    destruct (find_account accounts (toAccount f)).
    + rewrite balance_of_update_ne by congruence.
      now apply balance_of_update_eq.
    + now apply balance_of_update_eq.
  - exists (transferRecord f (clock w (ticks w)) (clock w (S (ticks w)))).
    split; [|split; [exact Hnan | reflexivity]].
    unfold credit. destruct (find_account accounts (toAccount f));
      reflexivity.
Qed.

(** X5 at the amount "thirty". *)
Lemma transfer_of_unparsable_amount_witness :
  let w := world (store [X100; Y50]) 1700000000000 in
  let r := handleTransfer [X100; Y50] form_words w in
  parseFloat (amount form_words) = nan /\
  balance_of (db r.2) "X" = Some nan /\
  map tx_amount (transactionsTable (db r.2)) = [nan].
Proof.
  intros w r. split; [reflexivity|].
  destruct (transfer_of_unparsable_amount [X100; Y50] form_words w X100)
    as (_ & Hb & t & Ht & Ha & _);
    try reflexivity; try discriminate.
  - vm_compute. eauto.
  - intros n. reflexivity.
  - split; [exact Hb|]. subst r. rewrite Ht. simpl. now rewrite Ha.
Defined.

(** X6. With both accounts in the list and in the database and every call
    resolving, a transfer that passes the checks writes the balances
    computed from the list handed to the form: source = listed source
    balance - amount, destination = listed destination balance + amount,
    whatever balances the database held. *)
Theorem transfer_writes_listed_balances
    (accounts : list Account) (f : Form) (w : World) (src tgt : Account) :
  passes_validation f ->
  find_account accounts (fromAccount f) = Some src ->
  find_account accounts (toAccount f) = Some tgt ->
  (acc_balance src <? parseFloat (amount f))%float = false ->
  is_Some (accountsTable (db w) !! fromAccount f) ->
  is_Some (accountsTable (db w) !! toAccount f) ->
  no_rejection w ->
  let d' := db (handleTransfer accounts f w).2 in
  balance_of d' (fromAccount f) =
    Some (acc_balance src - parseFloat (amount f))%float /\
  balance_of d' (toAccount f) =
    Some (acc_balance tgt + parseFloat (amount f))%float.
Proof.
  intros V Hs Ht Hlt Ss St Hrej d'.
  destruct (handleTransfer_completes accounts f w src) as (_ & Hdb & _); auto.
  subst d'. rewrite Hdb. unfold credit. rewrite Ht.
  destruct V as (_ & _ & _ & Hne & _). split.
  - rewrite balance_of_update_ne by congruence.
    now apply balance_of_update_eq.
  - apply balance_of_update_eq. now apply update_keeps_records.
Qed.

(** X6 at a list that still shows 100.00 and 50.00 while the database
    holds 70.00 and 80.00: the stale figures are the ones written back. *)
Lemma transfer_writes_listed_balances_witness :
  let w := world (store [X70; Y80]) 1700000000000 in
  let d' := db (handleTransfer [X100; Y50] form_30 w).2 in
  balance_of (db w) "X" = Some 70%float /\
  balance_of (db w) "Y" = Some 80%float /\
  balance_of d' "X" = Some 70%float /\
  balance_of d' "Y" = Some 80%float.
Proof.
  intros w d'. split; [reflexivity|]. split; [reflexivity|].
  apply (transfer_writes_listed_balances [X100; Y50] form_30 w X100 Y50);
    try reflexivity.
  - repeat split; try reflexivity; discriminate.
  - vm_compute. eauto.
  - vm_compute. eauto.
  - intros n. reflexivity.
Defined.

(** ** [handleTransfer]: a database call rejects *)

(** X7. When the call that creates the record rejects, the transfer fails
    cleanly: the catch block reports it and neither table has changed. *)
Theorem transfer_create_rejected
    (accounts : list Account) (f : Form) (w : World) (src : Account) :
  passes_validation f ->
  find_account accounts (fromAccount f) = Some src ->
  (acc_balance src <? parseFloat (amount f))%float = false ->
  rejects w (calls w) = true ->
  let r := handleTransfer accounts f w in
  r.1 = Normal tt /\ db r.2 = db w /\
  toasts (ui r.2) = toasts (ui w) ++ [failedTransfer] /\
  isLoading (ui r.2) = false.
Proof.
  intros (H1 & H2 & H3 & H4 & H5) Hfind Hlt R r. subst r.
  unfold handleTransfer. rewrite H1, H2, H3, H5, Hfind, Hlt. simpl.
  destruct (String.eqb_spec (fromAccount f) (toAccount f)); [contradiction|].
  run_effects. rewrite R. simpl. auto.
Qed.

Lemma form_30_passes : passes_validation form_30.
Proof. repeat split; try reflexivity; discriminate. Qed.

(** X7 at Scenario A with the first call rejecting. *)
Lemma transfer_create_rejected_witness :
  let w := world_rejecting 0 (store [X100; Y50]) 1700000000000 in
  let r := handleTransfer [X100; Y50] form_30 w in
  rejects w (calls w) = true /\ db r.2 = store [X100; Y50] /\
  toasts (ui r.2) = [failedTransfer].
Proof.
  intros w r. split; [reflexivity|].
  destruct (transfer_create_rejected [X100; Y50] form_30 w X100)
    as (_ & Hdb & Ht & _); try reflexivity.
  - exact form_30_passes.
  - split; [exact Hdb | exact Ht].
Defined.

(** X8. When the record is created and the call that debits the source
    rejects, the failure is reported but the [completed] record stays in
    the table, with no balance changed. *)
Theorem transfer_debit_rejected
    (accounts : list Account) (f : Form) (w : World) (src : Account) :
  passes_validation f ->
  find_account accounts (fromAccount f) = Some src ->
  (acc_balance src <? parseFloat (amount f))%float = false ->
  rejects w (calls w) = false ->
  rejects w (S (calls w)) = true ->
  let r := handleTransfer accounts f w in
  toasts (ui r.2) = toasts (ui w) ++ [failedTransfer] /\
  accountsTable (db r.2) = accountsTable (db w) /\
  exists t,
    transactionsTable (db r.2) = transactionsTable (db w) ++ [t] /\
    tx_status t = "completed" /\ tx_amount t = parseFloat (amount f).
Proof.
  intros (H1 & H2 & H3 & H4 & H5) Hfind Hlt R0 R1 r. subst r.
  unfold handleTransfer. rewrite H1, H2, H3, H5, Hfind, Hlt. simpl.
  destruct (String.eqb_spec (fromAccount f) (toAccount f)); [contradiction|].
  run_effects. rewrite R0. simpl. rewrite R1. simpl.
  repeat split. eexists. repeat split.
Qed.

(** X8 at Scenario A with the second call rejecting. *)
Lemma transfer_debit_rejected_witness :
  let w := world_rejecting 1 (store [X100; Y50]) 1700000000000 in
  let r := handleTransfer [X100; Y50] form_30 w in
  rejects w (S (calls w)) = true /\
  accountsTable (db r.2) = accountsTable (store [X100; Y50]) /\
  map tx_status (transactionsTable (db r.2)) = ["completed"].
Proof.
  intros w r. split; [reflexivity|].
  destruct (transfer_debit_rejected [X100; Y50] form_30 w X100)
    as (_ & Hacc & t & Ht & Hs & _); try reflexivity.
  - exact form_30_passes.
  - split; [exact Hacc|]. subst r. rewrite Ht. simpl. now rewrite Hs.
Defined.

(** X9. When the record is created, the source is debited and the call
    that credits the destination rejects, nothing is rolled back: the
    failure is reported, the record and the debit stay, and the destination
    keeps its balance. *)
Theorem transfer_credit_rejected
    (accounts : list Account) (f : Form) (w : World) (src tgt : Account) :
  passes_validation f ->
  find_account accounts (fromAccount f) = Some src ->
  find_account accounts (toAccount f) = Some tgt ->
  (acc_balance src <? parseFloat (amount f))%float = false ->
  is_Some (accountsTable (db w) !! fromAccount f) ->
  rejects w (calls w) = false ->
  rejects w (S (calls w)) = false ->
  rejects w (S (S (calls w))) = true ->
  let r := handleTransfer accounts f w in
  toasts (ui r.2) = toasts (ui w) ++ [failedTransfer] /\
  balance_of (db r.2) (fromAccount f) =
    Some (acc_balance src - parseFloat (amount f))%float /\
  balance_of (db r.2) (toAccount f) = balance_of (db w) (toAccount f) /\
  length (transactionsTable (db r.2)) = S (length (transactionsTable (db w))).
Proof.
  intros (H1 & H2 & H3 & H4 & H5) Hs Ht Hlt Ss R0 R1 R2 r. subst r.
  unfold handleTransfer. rewrite H1, H2, H3, H5, Hs, Hlt. simpl.
  destruct (String.eqb_spec (fromAccount f) (toAccount f)); [contradiction|].
  run_effects. rewrite R0. simpl. rewrite R1. simpl. rewrite Ht. simpl.
  rewrite R2. simpl. split; [reflexivity|]. split; [|split].
  - now apply (balance_of_update_eq (fromAccount f) _
                 (create_transaction _ (db w))).
  - now apply (balance_of_update_ne (fromAccount f) (toAccount f) _
                 (create_transaction _ (db w))).
  - rewrite length_app. simpl. lia.
Qed.

(** X9 at Scenario A with the third call rejecting: 30.00 leaves X and
    reaches no account. *)
Lemma transfer_credit_rejected_witness :
  let w := world_rejecting 2 (store [X100; Y50]) 1700000000000 in
  let r := handleTransfer [X100; Y50] form_30 w in
  rejects w (S (S (calls w))) = true /\
  balance_of (db r.2) "X" = Some 70%float /\
  balance_of (db r.2) "Y" = Some 50%float.
Proof.
  intros w r. split; [reflexivity|].
  destruct (transfer_credit_rejected [X100; Y50] form_30 w X100 Y50)
    as (_ & Hx & Hy & _); try reflexivity.
  - exact form_30_passes.
  - vm_compute. eauto.
  - split; [exact Hx | exact Hy].
Defined.

(** ** The destination selector *)

Lemma find_account_Some (accounts : list Account) (id : string) (a : Account) :
  find_account accounts id = Some a -> In a accounts /\ acc_id a = id.
Proof.
  unfold find_account. intros H. apply find_some in H.
  now rewrite String.eqb_eq in H.
Qed.

Lemma find_account_In (accounts : list Account) (a : Account) :
  In a accounts ->
  exists a', find_account accounts (acc_id a) = Some a' /\ acc_id a' = acc_id a.
Proof.
  unfold find_account. intros H.
  destruct (find _ accounts) as [a'|] eqn:E.
  - exists a'. split; [reflexivity|]. apply find_some in E.
    now apply String.eqb_eq.
  - apply (find_none _ _ E) in H. now rewrite String.eqb_refl in H.
Qed.

(** X10. The destination selector offers exactly the listed accounts other
    than the selected source, and whatever it offers is an id that
    [handleTransfer] finds in the same list: a destination picked from it
    passes the same-account check and gets its credit leg. *)
Theorem destination_options_are_listed
    (accounts : list Account) (fromAccount : string) (a : Account) :
  In a (destinationOptions accounts fromAccount) <->
  In a accounts /\ acc_id a <> fromAccount /\
  exists tgt, find_account accounts (acc_id a) = Some tgt /\
              acc_id tgt = acc_id a.
Proof.
  unfold destinationOptions. rewrite filter_In, negb_true_iff, String.eqb_neq.
  split.
  - intros [Hin Hne]. repeat split; auto. now apply find_account_In.
  - intros (Hin & Hne & _). auto.
Qed.

(** ** [handleApplyInterest] under every pattern of rejections *)

Lemma applyEach_ui (l : list Account) (total : number) (w : World) :
  ui (applyEach l total w).2 = ui w.
Proof.
  revert total w. induction l as [|a l IH]; intros total w; simpl;
    [reflexivity|].
  destruct (gtb (calculateInterest a monthly) 0); [|apply IH].
  run_effects. split_rejections; try reflexivity. now rewrite IH.
Qed.

Lemma interest_run_completes (l : list Account) (w : World) :
  let r :=
    (setIsCalculating true;;
     try_catch_finally
       (totalInterestApplied ← applyEach l 0%float;
        toast {| title := "Interest Applied Successfully";
                 description := InterestAdded totalInterestApplied;
                 variant := None |};;
        refresh)
       (toast (errorToast "Failed to apply interest"))
       (setIsCalculating false)) w in
  r.1 = Normal tt /\
  length (toasts (ui r.2)) = S (length (toasts (ui w))) /\
  isCalculating (ui r.2) = false.
Proof.
  unfold try_catch_finally, mbind, M_bind.
  cbn [setIsCalculating modify_ui]. cbn beta iota.
  match goal with
  | |- context [applyEach l ?t ?w1] =>
      pose proof (applyEach_ui l t w1) as U;
      destruct (applyEach l t w1) as [[t'|] w2]
  end; simpl in U; run_effects; rewrite U; simpl; rewrite length_app; simpl;
    repeat split; auto; lia.
Qed.

(** X11. Whatever the accounts and whichever database calls reject,
    [handleApplyInterest] returns normally, shows exactly one toast, and
    does not leave the calculator in its calculating state. *)
Theorem handleApplyInterest_always_completes
    (accounts : list Account) (w : World) :
  let r := handleApplyInterest accounts w in
  r.1 = Normal tt /\
  length (toasts (ui r.2)) = S (length (toasts (ui w))) /\
  (isCalculating (ui w) = false -> isCalculating (ui r.2) = false).
Proof.
  unfold handleApplyInterest.
  destruct (interestEligibleAccounts accounts) as [|a l].
  - simpl. rewrite length_app. simpl. repeat split; auto. lia.
  - destruct (interest_run_completes (a :: l) w) as (H1 & H2 & H3).
    split; [exact H1|]. split; [exact H2|]. intros _. exact H3.
Qed.

(** X12. With no savings, investment or business account in the list, the
    handler only tells so: no database call is made, the clock is not read
    and nothing is written. *)
Theorem interest_without_eligible_account (accounts : list Account) (w : World) :
  (forall a, In a accounts -> eligible a = false) ->
  let r := handleApplyInterest accounts w in
  map title (toasts (ui r.2)) = map title (toasts (ui w)) ++ ["No Eligible Accounts"] /\
  db r.2 = db w /\ calls r.2 = calls w /\ ticks r.2 = ticks w.
Proof.
  intros H r. subst r. unfold handleApplyInterest.
  assert (E : interestEligibleAccounts accounts = []).
  { unfold interestEligibleAccounts. induction accounts as [|a l IH];
      [reflexivity|]. simpl. rewrite (H a) by now left.
    apply IH. intros a0 Ha0. apply H. now right. }
  rewrite E. simpl. now rewrite map_app.
Qed.

(** X12 at a list that holds a checking account only. *)
Lemma interest_without_eligible_account_witness :
  let w := world (store [X100]) 1700000000000 in
  (forall a, In a [X100] -> eligible a = false) /\
  db (handleApplyInterest [X100] w).2 = db w.
Proof.
  intros w.
  assert (H : forall a, In a [X100] -> eligible a = false).
  { intros a [<-|[]]. reflexivity. }
  split; [exact H|].
  now apply (interest_without_eligible_account [X100] w).
Defined.

(** The loop keeps whatever its two writes keep. *)
Lemma applyEach_db_ind (R : Db -> Prop) (l : list Account) :
  (forall d a, In a l -> posts a = true -> R d ->
     R (update_balance (acc_id a)
          (acc_balance a + calculateInterest a monthly)%float d)) ->
  (forall d a now1 now2, In a l -> posts a = true -> R d ->
     R (create_transaction
          (interestTransaction a (calculateInterest a monthly) now1 now2) d)) ->
  forall total w, R (db w) -> R (db (applyEach l total w).2).
Proof.
  induction l as [|a l IH]; intros Hu Hc total w HR; simpl; [exact HR|].
  assert (IH' : forall total w, R (db w) -> R (db (applyEach l total w).2)).
  { apply IH.
    - intros d a0 Ha0. apply Hu. now right.
    - intros d a0 n1 n2 Ha0. apply Hc. now right. }
  fold (posts a). destruct (posts a) eqn:P; [|now apply IH'].
  run_effects. split_rejections; try exact HR.
  - apply Hu; [now left | exact P | exact HR].
  - apply IH'. simpl. apply Hc; [now left | exact P |].
    apply Hu; [now left | exact P | exact HR].
Qed.

(** X13. Posting interest changes nothing of the accounts but balances:
    whichever database calls reject, no account is created or removed,
    every account keeps all its other fields, and an id carried by none of
    the accounts that are due interest keeps its balance too (so a
    checking account is never credited). *)
Theorem interest_touches_only_due_balances (accounts : list Account) (w : World) :
  let d' := db (handleApplyInterest accounts w).2 in
  same_but_balances (db w) d' /\
  forall id, (forall a, In a (due accounts) -> acc_id a <> id) ->
             accountsTable d' !! id = accountsTable (db w) !! id.
Proof.
  intros d'. subst d'. rewrite handleApplyInterest_db. split.
  - apply (applyEach_db_ind (same_but_balances (db w))).
    + intros d a _ _. apply same_but_balances_update.
    + intros d a n1 n2 _ _. apply same_but_balances_create.
    + apply same_but_balances_refl.
  - intros id Hid.
    apply (applyEach_db_ind
             (fun d => accountsTable d !! id = accountsTable (db w) !! id)).
    + intros d a Ha P Hd. simpl. rewrite lookup_alter_ne; [exact Hd|].
      apply Hid. unfold due. now apply filter_In.
    + intros d a n1 n2 _ _ Hd. exact Hd.
    + reflexivity.
Qed.

(** X14. The transaction table is append-only under [handleApplyInterest]:
    whichever database calls reject, the records present stay as they are,
    and every record added is a [completed] interest record without a
    source account, credited to an eligible listed account, whose amount is
    that account's computed monthly interest and is [> 0]. *)
Theorem interest_appends_interest_records (accounts : list Account) (w : World) :
  exists created,
    transactionsTable (db (handleApplyInterest accounts w).2) =
      transactionsTable (db w) ++ created /\
    Forall (interest_record_ok accounts) created.
Proof.
  rewrite handleApplyInterest_db.
  apply (applyEach_db_ind
           (fun d => exists created,
              transactionsTable d = transactionsTable (db w) ++ created /\
              Forall (interest_record_ok accounts) created)).
  - intros d a _ _ H. exact H.
  - intros d a n1 n2 Ha P (created & Hd & Hok).
    exists (created ++
            [interestTransaction a (calculateInterest a monthly) n1 n2]).
    simpl. rewrite Hd, <- app_assoc. split; [reflexivity|].
    apply Forall_app. split; [exact Hok|]. constructor; [|constructor].
    repeat split; try exact P. exists a. repeat split.
    unfold due. now apply filter_In.
  - exists []. now rewrite app_nil_r.
Qed.

(** ** [handleApplyInterest]: a database call rejects *)

(** Accounts that earn nothing take no step of the loop. *)
Lemma applyEach_due (l : list Account) (total : number) (w : World) :
  applyEach l total w = applyEach (List.filter posts l) total w.
Proof.
  revert total w. induction l as [|a l IH]; intros total w; simpl;
    [reflexivity|].
  fold (posts a). destruct (posts a) eqn:P; [|apply IH]. simpl.
  fold (posts a). rewrite P.
  run_effects. split_rejections; try reflexivity. apply IH.
Qed.

(** The loop over a prefix of accounts that all earn interest, while no
    call rejects: two calls and two clock readings per account. *)
Lemma applyEach_prefix (pre rest : list Account) (total : number) (w : World) :
  Forall (fun a => posts a = true) pre ->
  (forall n, (n < 2 * length pre)%nat -> rejects w (calls w + n) = false) ->
  exists total' w',
    applyEach (pre ++ rest) total w = applyEach rest total' w' /\
    transactionsTable (db w') =
      transactionsTable (db w) ++ batch (clock w) (ticks w) pre /\
    accountsTable (db w') = credited pre (accountsTable (db w)) /\
    rejects w' = rejects w /\ calls w' = (calls w + 2 * length pre)%nat /\
    clock w' = clock w /\ ui w' = ui w.
Proof.
  revert total w. induction pre as [|a pre IH]; intros total w Hp Hr.
  - exists total, w. simpl. rewrite app_nil_r, Nat.add_0_r. auto 10.
  - apply Forall_cons in Hp. destruct Hp as [P Hp].
    assert (R0 : rejects w (calls w) = false).
    { rewrite <- (Nat.add_0_r (calls w)). apply Hr. simpl. lia. }
    assert (R1 : rejects w (S (calls w)) = false).
    { replace (S (calls w)) with (calls w + 1)%nat by lia. apply Hr.
      simpl. lia. }
    simpl. fold (posts a). rewrite P. run_effects. rewrite R0. simpl.
    rewrite R1. simpl.
    match goal with
    | |- context [applyEach (pre ++ rest) ?t ?w1] =>
        destruct (IH t w1 Hp) as (total' & w' & E & Htx & Hacc & Hrj & Hc & Hk & Hu)
    end.
    { intros n Hn. simpl.
      replace (S (S (calls w + n))) with (calls w + (n + 2))%nat by lia.
      apply Hr. simpl. lia. }
    exists total', w'. simpl in *. rewrite E, Htx, Hacc, Hrj, Hc, Hk, Hu.
    rewrite <- app_assoc. repeat split; auto. lia.
Qed.

(** The guarded run of the handler when its loop throws, and when it
    returns. *)
Lemma interest_run_thrown (l : list Account) (w w' : World) :
  applyEach l 0%float (setIsCalculating true w).2 = (Thrown, w') ->
  let r :=
    (setIsCalculating true;;
     try_catch_finally
       (totalInterestApplied ← applyEach l 0%float;
        toast {| title := "Interest Applied Successfully";
                 description := InterestAdded totalInterestApplied;
                 variant := None |};;
        refresh)
       (toast failedInterest)
       (setIsCalculating false)) w in
  db r.2 = db w' /\ toasts (ui r.2) = toasts (ui w) ++ [failedInterest].
Proof.
  intros H.
  pose proof (applyEach_ui l 0%float (setIsCalculating true w).2) as U.
  rewrite H in U.
  unfold try_catch_finally, mbind, M_bind, setIsCalculating, modify_ui in *.
  simpl in *. rewrite H. simpl. rewrite U. auto.
Qed.

Lemma interest_run_returned (l : list Account) (w w' : World) (total : number) :
  applyEach l 0%float (setIsCalculating true w).2 = (Normal total, w') ->
  let r :=
    (setIsCalculating true;;
     try_catch_finally
       (totalInterestApplied ← applyEach l 0%float;
        toast {| title := "Interest Applied Successfully";
                 description := InterestAdded totalInterestApplied;
                 variant := None |};;
        refresh)
       (toast failedInterest)
       (setIsCalculating false)) w in
  db r.2 = db w' /\
  toasts (ui r.2) =
    toasts (ui w) ++
    [{| title := "Interest Applied Successfully";
        description := InterestAdded total; variant := None |}] /\
  refreshes (ui r.2) = S (refreshes (ui w)).
Proof.
  intros H.
  pose proof (applyEach_ui l 0%float (setIsCalculating true w).2) as U.
  rewrite H in U.
  unfold try_catch_finally, mbind, M_bind, setIsCalculating, modify_ui in *.
  simpl in *. rewrite H. simpl. rewrite U. auto.
Qed.

Lemma handleApplyInterest_thrown (accounts : list Account) (w w' : World) :
  applyEach (interestEligibleAccounts accounts) 0%float
    (setIsCalculating true w).2 = (Thrown, w') ->
  let r := handleApplyInterest accounts w in
  db r.2 = db w' /\ toasts (ui r.2) = toasts (ui w) ++ [failedInterest].
Proof.
  intros H. unfold handleApplyInterest.
  destruct (interestEligibleAccounts accounts) as [|a l];
    [discriminate H|].
  exact (interest_run_thrown (a :: l) w w' H).
Qed.

Lemma handleApplyInterest_returned
    (accounts : list Account) (w w' : World) (total : number) :
  interestEligibleAccounts accounts <> [] ->
  applyEach (interestEligibleAccounts accounts) 0%float
    (setIsCalculating true w).2 = (Normal total, w') ->
  let r := handleApplyInterest accounts w in
  db r.2 = db w' /\
  toasts (ui r.2) =
    toasts (ui w) ++
    [{| title := "Interest Applied Successfully";
        description := InterestAdded total; variant := None |}] /\
  refreshes (ui r.2) = S (refreshes (ui w)).
Proof.
  intros Hne H. unfold handleApplyInterest.
  destruct (interestEligibleAccounts accounts) as [|a l];
    [contradiction|].
  exact (interest_run_returned (a :: l) w w' total H).
Qed.

(** X15. A rejection stops the run. When the accounts due interest are
    [pre ++ account :: post], the calls for [pre] resolve and the call that
    credits [account] rejects, then [pre] is fully processed and neither
    [account] nor any account of [post] is credited or gets a record; the
    failure is reported. *)
Theorem interest_credit_rejected
    (accounts pre post : list Account) (account : Account) (w : World) :
  due accounts = pre ++ account :: post ->
  (forall n, (n < 2 * length pre)%nat -> rejects w (calls w + n) = false) ->
  rejects w (calls w + 2 * length pre) = true ->
  let r := handleApplyInterest accounts w in
  transactionsTable (db r.2) =
    transactionsTable (db w) ++ batch (clock w) (ticks w) pre /\
  accountsTable (db r.2) = credited pre (accountsTable (db w)) /\
  toasts (ui r.2) = toasts (ui w) ++ [failedInterest].
Proof.
  intros Hdue Hr Rk r.
  assert (Hp : Forall (fun a => posts a = true) (pre ++ account :: post)).
  { rewrite <- Hdue. apply List.Forall_forall. intros a Ha.
    unfold due in Ha. now apply filter_In in Ha. }
  apply Forall_app in Hp. destruct Hp as [Hpre Hpost].
  apply Forall_cons in Hpost. destruct Hpost as [P _].
  destruct (applyEach_prefix pre (account :: post) 0%float
              (setIsCalculating true w).2 Hpre Hr)
    as (total' & w' & E & Htx & Hacc & Hrj & Hc & _ & _).
  assert (T : exists w'', applyEach (interestEligibleAccounts accounts) 0%float
                (setIsCalculating true w).2 = (Thrown, w'') /\ db w'' = db w').
  { rewrite applyEach_due. fold (due accounts). rewrite Hdue, E.
    simpl. fold (posts account). rewrite P. run_effects.
    rewrite Hrj, Hc.
    change (rejects (setIsCalculating true w).2) with (rejects w).
    change (calls (setIsCalculating true w).2) with (calls w).
    rewrite Rk. simpl. eauto. }
  destruct T as (w'' & T & Hdb).
  destruct (handleApplyInterest_thrown accounts w w'' T) as (H1 & H2).
  subst r. rewrite H1, Hdb, Htx, Hacc. auto.
Qed.

(** X15 at two accounts due interest, the very first call rejecting: the
    second account gets nothing either. *)
Lemma interest_credit_rejected_witness :
  let w := world_rejecting 0 (store [Y50; Z1000]) 1700000000000 in
  let r := handleApplyInterest [Y50; Z1000] w in
  due [Y50; Z1000] = [] ++ Y50 :: [Z1000] /\
  transactionsTable (db r.2) = [] /\
  accountsTable (db r.2) = accountsTable (store [Y50; Z1000]) /\
  toasts (ui r.2) = [failedInterest].
Proof.
  intros w r.
  destruct (interest_credit_rejected [Y50; Z1000] [] [Z1000] Y50 w)
    as (Htx & Hacc & Ht).
  - reflexivity.
  - intros n Hn. simpl in Hn. lia.
  - reflexivity.
  - split; [reflexivity|]. split; [exact Htx|]. split; [exact Hacc|exact Ht].
Defined.

(** X16. When the calls for [pre] resolve, the call that credits [account]
    resolves and the call that creates its record rejects, the account
    keeps the credit but has no interest record, the accounts of [post]
    are not processed, and the failure is reported. *)
Theorem interest_record_rejected
    (accounts pre post : list Account) (account : Account) (w : World) :
  due accounts = pre ++ account :: post ->
  (forall n, (n < 2 * length pre + 1)%nat -> rejects w (calls w + n) = false) ->
  rejects w (calls w + 2 * length pre + 1) = true ->
  let r := handleApplyInterest accounts w in
  transactionsTable (db r.2) =
    transactionsTable (db w) ++ batch (clock w) (ticks w) pre /\
  accountsTable (db r.2) =
    alter (set_balance
             (acc_balance account + calculateInterest account monthly)%float)
      (acc_id account) (credited pre (accountsTable (db w))) /\
  toasts (ui r.2) = toasts (ui w) ++ [failedInterest].
Proof.
  intros Hdue Hr Rk r.
  assert (Hp : Forall (fun a => posts a = true) (pre ++ account :: post)).
  { rewrite <- Hdue. apply List.Forall_forall. intros a Ha.
    unfold due in Ha. now apply filter_In in Ha. }
  apply Forall_app in Hp. destruct Hp as [Hpre Hpost].
  apply Forall_cons in Hpost. destruct Hpost as [P _].
  destruct (applyEach_prefix pre (account :: post) 0%float
              (setIsCalculating true w).2 Hpre)
    as (total' & w' & E & Htx & Hacc & Hrj & Hc & _ & _).
  { intros n Hn. apply Hr. lia. }
  assert (T : exists w'', applyEach (interestEligibleAccounts accounts) 0%float
                (setIsCalculating true w).2 = (Thrown, w'') /\
              db w'' = update_balance (acc_id account)
                         (acc_balance account + calculateInterest account monthly)%float
                         (db w')).
  { rewrite applyEach_due. fold (due accounts). rewrite Hdue, E.
    simpl. fold (posts account). rewrite P. run_effects.
    rewrite Hrj, Hc.
    change (rejects (setIsCalculating true w).2) with (rejects w).
    change (calls (setIsCalculating true w).2) with (calls w).
    rewrite (Hr (2 * length pre)%nat) by lia. simpl.
    match goal with
    | |- context [rejects w ?n] =>
        replace n with (calls w + 2 * length pre + 1)%nat by (simpl; lia)
    end.
    rewrite Rk. simpl. eauto. }
  destruct T as (w'' & T & Hdb).
  destruct (handleApplyInterest_thrown accounts w w'' T) as (H1 & H2).
  subst r. rewrite H1, Hdb. simpl. rewrite Htx, Hacc. auto.
Qed.

(** X16 at Scenario C with the second call rejecting: the balance is
    1002.00 and the transaction table is empty. *)
Lemma interest_record_rejected_witness :
  let w := world_rejecting 1 (store [Z1000]) 1700000000000 in
  let r := handleApplyInterest [Z1000] w in
  due [Z1000] = [] ++ Z1000 :: [] /\
  transactionsTable (db r.2) = [] /\
  balance_of (db r.2) "Z" = Some 1002%float.
Proof.
  intros w r.
  destruct (interest_record_rejected [Z1000] [] [] Z1000 w)
    as (Htx & Hacc & _).
  - reflexivity.
  - intros n Hn. simpl in Hn. assert (n = 0)%nat as -> by lia. reflexivity.
  - reflexivity.
  - split; [reflexivity|]. split; [exact Htx|].
    unfold balance_of. subst r. rewrite Hacc. vm_compute. reflexivity.
Defined.

(** ** The total the handler reports *)

Lemma applyEach_total (l : list Account) (total : number) (w : World) :
  no_rejection w -> (applyEach l total w).1 = Normal (totalApplied l total).
Proof.
  revert total w. induction l as [|a l IH]; intros total w Hrej; simpl;
    [reflexivity|].
  unfold totalApplied. simpl. fold (posts a).
  destruct (posts a); [|now apply IH].
  unfold mbind, M_bind, accounts_update, transactions_create, await,
    Date_now. resolve_calls Hrej.
  match goal with
  | |- context [applyEach l ?t ?w1] => exact (IH t w1 Hrej)
  end.
Qed.

(** A run whose calls all resolve ends in the success branch, with the
    running total of the loop in its toast. *)
Lemma interest_run_succeeds (accounts : list Account) (w : World) :
  interestEligibleAccounts accounts <> [] ->
  no_rejection w ->
  let r := handleApplyInterest accounts w in
  toasts (ui r.2) =
    toasts (ui w) ++
    [{| title := "Interest Applied Successfully";
        description :=
          InterestAdded (totalApplied (interestEligibleAccounts accounts) 0%float);
        variant := None |}] /\
  refreshes (ui r.2) = S (refreshes (ui w)).
Proof.
  intros Hne Hrej r.
  pose proof (applyEach_total (interestEligibleAccounts accounts) 0%float
                (setIsCalculating true w).2 Hrej) as T.
  destruct (applyEach _ _ _) as [c w'] eqn:E. simpl in T. subst c.
  destruct (handleApplyInterest_returned accounts w w' _ Hne E)
    as (_ & Ht & Hr).
  split; [exact Ht | exact Hr].
Qed.

(** X17. When at least one account is eligible and every database call
    resolves, the success toast reports the sum, taken in list order from
    0, of the amounts posted, and the parent is asked to reload once. *)
Theorem interest_toast_reports_total (accounts : list Account) (w : World) :
  interestEligibleAccounts accounts <> [] ->
  no_rejection w ->
  let r := handleApplyInterest accounts w in
  toasts (ui r.2) =
    toasts (ui w) ++
    [{| title := "Interest Applied Successfully";
        description :=
          InterestAdded
            (fold_left
               (fun sum a => (sum + calculateInterest a monthly)%float)
               (due accounts) 0%float);
        variant := None |}] /\
  refreshes (ui r.2) = S (refreshes (ui w)).
Proof.
  intros Hne Hrej r.
  destruct (interest_run_succeeds accounts w Hne Hrej) as (Ht & Hr).
  split; [exact Ht | exact Hr].
Qed.

(** X17 at an account earning 0.10416666666666666 and one earning 2. *)
Lemma interest_toast_reports_total_witness :
  let w := world (store [Y50; Z1000]) 1700000000000 in
  let r := handleApplyInterest [Y50; Z1000] w in
  no_rejection w /\
  map description (toasts (ui r.2)) =
    [InterestAdded (0 + calculateInterest Y50 monthly + 2)%float].
Proof.
  intros w r. split; [intros n; reflexivity|].
  destruct (interest_toast_reports_total [Y50; Z1000] w) as (Ht & _).
  - discriminate.
  - intros n. reflexivity.
  - subst r. rewrite Ht. reflexivity.
Defined.

Lemma filter_all {A : Type} (p : A -> bool) (l : list A) :
  (forall a, In a l -> p a = true) -> List.filter p l = l.
Proof.
  induction l as [|a l IH]; intros H; simpl; [reflexivity|].
  rewrite (H a) by now left. f_equal. apply IH. intros a0 Ha0. apply H.
  now right.
Qed.

(** X18. The monthly projection shown on the card
    ([totalProjectedInterest]) sums the interest of every eligible account;
    the handler sums only the amounts that are [> 0]. When every eligible
    account earns an interest [> 0] and every database call resolves, the
    total the success toast reports is the monthly projection. *)
Theorem interest_applied_matches_projection (accounts : list Account) (w : World) :
  interestEligibleAccounts accounts <> [] ->
  (forall a, In a (interestEligibleAccounts accounts) -> posts a = true) ->
  no_rejection w ->
  toasts (ui (handleApplyInterest accounts w).2) =
    toasts (ui w) ++
    [{| title := "Interest Applied Successfully";
        description := InterestAdded (totalProjectedInterest accounts monthly);
        variant := None |}].
Proof.
  intros Hne Hall Hrej.
  destruct (interest_run_succeeds accounts w Hne Hrej) as (Ht & _).
  rewrite Ht. unfold totalApplied, due, totalProjectedInterest.
  now rewrite (filter_all posts _ Hall).
Qed.

(** X18 at the accounts Y and Z. *)
Lemma interest_applied_matches_projection_witness :
  let w := world (store [Y50; Z1000]) 1700000000000 in
  (forall a, In a (interestEligibleAccounts [Y50; Z1000]) -> posts a = true) /\
  map description (toasts (ui (handleApplyInterest [Y50; Z1000] w).2)) =
    [InterestAdded (totalProjectedInterest [Y50; Z1000] monthly)].
Proof.
  intros w.
  assert (H : forall a, In a (interestEligibleAccounts [Y50; Z1000]) ->
                        posts a = true).
  { intros a [<-|[<-|[]]]; reflexivity. }
  split; [exact H|].
  rewrite (interest_applied_matches_projection [Y50; Z1000] w).
  - reflexivity.
  - discriminate.
  - exact H.
  - intros n. reflexivity.
Defined.

(** ** Signs *)

Lemma binary_round_aux_sign (sx : bool) (mx ex : Z) (lx : location) :
  match binary_round_aux prec emax sx mx ex lx with
  | S754_zero s | S754_infinity s | S754_finite s _ _ => s = sx
  | S754_nan => True
  end.
Proof.
  unfold binary_round_aux.
  destruct (shr_fexp prec emax mx ex lx) as [mrs' e'].
  destruct (shr_fexp prec emax _ e' loc_Exact) as [mrs'' e''].
  destruct (shr_m mrs''); [reflexivity | | exact I].
  now destruct (Z.leb e'' _).
Qed.

Lemma SFmul_not_positive (x y : spec_float) :
  (not_positive x = true /\ not_negative y = true) \/
  (not_negative x = true /\ not_positive y = true) ->
  not_positive (SFmul prec emax x y) = true.
Proof.
  destruct x as [sx|sx| |sx mx ex], y as [sy|sy| |sy my ey]; simpl;
    try reflexivity;
    try (intros [[H1 H2]|[H1 H2]]; subst;
         try (apply negb_true_iff in H1); try (apply negb_true_iff in H2);
         subst; reflexivity).
  intros H.
  pose proof (binary_round_aux_sign (xorb sx sy)
                (Zpos (PosDef.Pos.mul mx my)) (IntDef.Z.add ex ey) loc_Exact) as S.
  destruct (binary_round_aux _ _ _ _ _ _); try reflexivity; simpl; subst;
    destruct H as [[H1 H2]|[H1 H2]];
    try (apply negb_true_iff in H1); try (apply negb_true_iff in H2);
    subst; reflexivity.
Qed.

Lemma gtb_zero_not_positive (x : number) :
  gtb x 0 = negb (not_positive (Prim2SF x)).
Proof.
  unfold gtb. rewrite ltb_spec. change (Prim2SF 0) with (S754_zero false).
  now destruct (Prim2SF x) as [s|[]| |[] m e].
Qed.

Lemma ltb_zero_not_negative (x : number) :
  (x <? 0)%float = negb (not_negative (Prim2SF x)).
Proof.
  rewrite ltb_spec. change (Prim2SF 0) with (S754_zero false).
  now destruct (Prim2SF x) as [s|[]| |[] m e].
Qed.

Lemma periodMultiplier_not_negative (period : Period) :
  not_negative (Prim2SF (periodMultiplier period)) = true.
Proof. now destruct period. Qed.

(** X19. No interest is computed as [> 0], for any period, on a balance
    that is not [> 0] at a rate that is not [< 0] (an empty or overdrawn
    account), nor on a balance that is not [< 0] at a rate that is not
    [> 0]. Such an account is never credited by [handleApplyInterest]:
    whichever database calls reject, its balance in the database is
    unchanged and no record is created for it. Account ids are unique in
    the list. *)
Theorem no_interest_against_the_sign
    (accounts : list Account) (account : Account) (period : Period) (w : World) :
  In account accounts ->
  NoDup (map acc_id accounts) ->
  (gtb (acc_balance account) 0 = false /\ (rateOf account <? 0)%float = false) \/
  ((acc_balance account <? 0)%float = false /\ gtb (rateOf account) 0 = false) ->
  let w' := (handleApplyInterest accounts w).2 in
  gtb (calculateInterest account period) 0 = false /\
  accountsTable (db w') !! acc_id account =
    accountsTable (db w) !! acc_id account /\
  exists created,
    transactionsTable (db w') = transactionsTable (db w) ++ created /\
    Forall (fun t => tx_toAccountId t <> Some (acc_id account)) created.
Proof.
  intros Hin Hdup Hsign w'.
  assert (P : forall p, gtb (calculateInterest account p) 0 = false).
  { intros p. rewrite gtb_zero_not_positive. apply negb_false_iff.
    unfold calculateInterest. rewrite mul_spec. apply SFmul_not_positive.
    left. split; [|apply periodMultiplier_not_negative].
    rewrite mul_spec. apply SFmul_not_positive.
    rewrite !gtb_zero_not_positive, !ltb_zero_not_negative in Hsign.
    rewrite !negb_false_iff in Hsign. exact Hsign. }
  split; [apply P|].
  subst w'. rewrite handleApplyInterest_db.
  apply (applyEach_leaves_alone (acc_id account)
           (interestEligibleAccounts accounts) 0%float
           (setIsCalculating true w).2).
  intros a Ha E. unfold interestEligibleAccounts in Ha.
  apply filter_In in Ha.
  rewrite (unique_id accounts a account Hdup (proj1 Ha) Hin E).
  apply P.
Qed.

(** X19 at an account overdrawn by 250.00, next to one that earns. *)
Lemma no_interest_against_the_sign_witness :
  let accounts := [V_overdrawn; Z1000] in
  let w := world (store accounts) 1700000000000 in
  let w' := (handleApplyInterest accounts w).2 in
  gtb (acc_balance V_overdrawn) 0 = false /\
  (rateOf V_overdrawn <? 0)%float = false /\
  balance_of (db w') "V" = Some (-250)%float /\
  map tx_toAccountId (transactionsTable (db w')) = [Some "Z"].
Proof.
  intros accounts w w'.
  destruct (no_interest_against_the_sign accounts V_overdrawn monthly w)
    as (_ & Hacc & _).
  - now left.
  - simpl.
    repeat (constructor 2;
            [rewrite list_elem_of_In; simpl; intuition discriminate|]).
    constructor 1.
  - left. split; reflexivity.
  - split; [reflexivity|]. split; [reflexivity|].
    split; [exact (f_equal (fmap acc_balance) Hacc)|].
    vm_compute. reflexivity.
Defined.

(** ** The transaction history *)

Lemma includes_empty (s : string) : includes s "" = true.
Proof. now destruct s. Qed.

(** X20. With the search box empty and both filters on 'all', the history
    shows every transaction it was given, in the order given. *)
Theorem history_default_shows_all
    (transactions : list TransactionRow) (accounts : list Account) :
  filteredTransactions transactions accounts "" "all" "all" = transactions.
Proof.
  unfold filteredTransactions. apply filter_all. intros t _.
  unfold matchesSearch. simpl. rewrite !includes_empty.
  now rewrite !orb_true_r.
Qed.

(** X21. A transaction without a source or without a destination account
    is displayed with the word 'External' there, and the search looks at
    that word too: any search term that occurs in "external" selects every
    such transaction (under filters that accept it), whatever its
    description and reference number. *)
Theorem history_search_matches_external
    (transactions : list TransactionRow) (accounts : list Account)
    (searchTerm : string) (transaction : TransactionRow) :
  In transaction transactions ->
  row_fromAccountId transaction = None \/ row_toAccountId transaction = None ->
  includes "external" (toLowerCase searchTerm) = true ->
  In transaction
    (filteredTransactions transactions accounts searchTerm "all" "all").
Proof.
  intros Hin Hext Hinc. unfold filteredTransactions.
  apply filter_In. split; [exact Hin|]. simpl.
  rewrite !andb_true_r. unfold matchesSearch.
  destruct Hext as [-> | ->];
    change (getAccountNumber accounts None) with "External";
    change (toLowerCase "External") with "external";
    rewrite Hinc; now rewrite ?orb_true_r.
Qed.

(** X21 at the search term "Tern". *)
Lemma history_search_matches_external_witness :
  includes "external" (toLowerCase "Tern") = true /\
  In row_interest (filteredTransactions [row_interest] [Z1000] "Tern" "all" "all").
Proof.
  split; [reflexivity|].
  apply (history_search_matches_external [row_interest] [Z1000] "Tern").
  - now left.
  - now left.
  - reflexivity.
Defined.

(** ** Account numbers *)

Lemma length_append (s t : string) :
  String.length (s +:+ t) = (String.length s + String.length t)%nat.
Proof. induction s as [|c s IH]; simpl; [reflexivity | now rewrite IH]. Qed.

Lemma length_repeat_char (c : ascii) (n : nat) :
  String.length (repeat_char c n) = n.
Proof. induction n as [|n IH]; simpl; [reflexivity | now rewrite IH]. Qed.

Lemma all_digits_append (s t : string) :
  all_digits s = true -> all_digits t = true -> all_digits (s +:+ t) = true.
Proof.
  induction s as [|c s IH]; simpl; [auto|].
  destruct (JsParse.digit_of c); [exact IH | discriminate].
Qed.

Lemma all_digits_zeros (n : nat) : all_digits (repeat_char "0" n) = true.
Proof. induction n as [|n IH]; [reflexivity | exact IH]. Qed.

Lemma length_string_of_uint (d : Decimal.uint) :
  String.length (NilEmpty.string_of_uint d) = Decimal.nb_digits d.
Proof. induction d; simpl; congruence. Qed.

Lemma all_digits_string_of_uint (d : Decimal.uint) :
  all_digits (NilEmpty.string_of_uint d) = true.
Proof. induction d; simpl; auto. Qed.

Lemma usize_nb_digits (d : Decimal.uint) :
  Unsigned.usize d = N.of_nat (Decimal.nb_digits d).
Proof.
  induction d; simpl Unsigned.usize; simpl Decimal.nb_digits;
    rewrite ?IHd, ?Nat2N.inj_succ; reflexivity.
Qed.

(** The decimal numeral of a positive number has no leading zero. *)
Lemma to_uint_no_leading_zero (p : positive) (d' : Decimal.uint) :
  Pos.to_uint p <> Decimal.D0 d'.
Proof.
  assert (U : Decimal.unorm (Pos.to_uint p) = Pos.to_uint p).
  { rewrite <- Unsigned.to_of. rewrite Unsigned.of_to. reflexivity. }
  assert (Z : Decimal.nzhead (Pos.to_uint p) = Pos.to_uint p).
  { unfold Decimal.unorm in U.
    destruct (Decimal.nzhead (Pos.to_uint p)) eqn:E; try exact U.
    exfalso. apply (Unsigned.to_uint_nonzero p). now symmetry. }
  rewrite <- Z. apply DecimalFacts.nzhead_nonzero.
Qed.

(** A numeral of [n + 1] digits without a leading zero is worth at least
    [10^n]. *)
Lemma of_uint_lower (d : Decimal.uint) :
  d <> Decimal.Nil -> (forall d', d <> Decimal.D0 d') ->
  (10 ^ N.of_nat (Decimal.nb_digits d - 1) <= Pos.of_uint d)%N.
Proof.
  intros Hn H0.
  destruct d as [|d|d|d|d|d|d|d|d|d|d];
    [contradiction | exfalso; now apply (H0 d) | ..];
    simpl Pos.of_uint; rewrite Unsigned.of_uint_acc_rev, usize_nb_digits;
    replace (Decimal.nb_digits _ - 1)%nat with (Decimal.nb_digits d)
      by (simpl; lia);
    set (X := (10 ^ N.of_nat (Decimal.nb_digits d))%N); lia.
Qed.

Lemma to_uint_digits (p : positive) (k : nat) :
  (N.pos p < 10 ^ N.of_nat k)%N -> (Decimal.nb_digits (Pos.to_uint p) <= k)%nat.
Proof.
  intros H.
  pose proof (of_uint_lower (Pos.to_uint p) (Unsigned.to_uint_nonnil p)
                (to_uint_no_leading_zero p)) as L.
  rewrite Unsigned.of_to in L.
  assert (B : (N.of_nat (Decimal.nb_digits (Pos.to_uint p) - 1) < N.of_nat k)%N).
  { apply (N.pow_lt_mono_r_iff 10); [lia|].
    eapply N.le_lt_trans; [exact L | exact H]. }
  lia.
Qed.

Lemma toString_length (n : Z) :
  0 <= n < 100000000 -> (1 <= String.length (toString n) <= 8)%nat.
Proof.
  intros [H0 H1]. unfold toString. destruct n as [|p|p]; [simpl; lia| |lia].
  simpl Z.to_int. simpl NilZero.string_of_int. unfold NilZero.string_of_uint.
  pose proof (to_uint_digits p 8) as D.
  pose proof (Unsigned.to_uint_nonnil p) as N.
  destruct (Pos.to_uint p) eqn:E; [contradiction|..];
    rewrite length_string_of_uint; simpl Decimal.nb_digits in *;
    (split; [lia | apply D; change (10 ^ N.of_nat 8)%N with 100000000%N; lia]).
Qed.

Lemma toString_digits (n : Z) : 0 <= n -> all_digits (toString n) = true.
Proof.
  intros H. unfold toString. destruct n as [|p|p]; [reflexivity| |lia].
  simpl Z.to_int. simpl NilZero.string_of_int. unfold NilZero.string_of_uint.
  destruct (Pos.to_uint p); try reflexivity;
    apply all_digits_string_of_uint.
Qed.

(** X22. For every draw from 0 to 99999999, the generated account number
    is a string of exactly 12 decimal digits: the four digits that stand
    for the account type (1001 checking, 2001 savings, 3001 business, 4001
    for any other type) followed by the draw written with 8 digits. *)
Theorem account_number_format (accountType : string) (random : Z) :
  0 <= random < 100000000 ->
  let number := generateAccountNumber accountType random in
  String.length number = 12%nat /\ all_digits number = true /\
  exists suffix,
    String.length suffix = 8%nat /\
    number =
      (if String.eqb accountType "checking" then "1001"
       else if String.eqb accountType "savings" then "2001"
       else if String.eqb accountType "business" then "3001"
       else "4001") +:+ suffix.
Proof.
  intros H number. subst number. unfold generateAccountNumber.
  pose proof (toString_length random H) as L.
  assert (L8 : String.length (padStart 8 "0" (toString random)) = 8%nat).
  { unfold padStart. rewrite length_append, length_repeat_char. lia. }
  assert (D8 : all_digits (padStart 8 "0" (toString random)) = true).
  { unfold padStart. apply all_digits_append;
      [apply all_digits_zeros | apply toString_digits; lia]. }
  repeat split.
  - rewrite length_append, L8.
    now destruct (String.eqb accountType "checking"),
      (String.eqb accountType "savings"), (String.eqb accountType "business").
  - apply all_digits_append; [|exact D8].
    now destruct (String.eqb accountType "checking"),
      (String.eqb accountType "savings"), (String.eqb accountType "business").
  - exists (padStart 8 "0" (toString random)). split; [exact L8 | reflexivity].
Qed.

(** X22 at a savings account and the draw 4711. *)
Lemma account_number_format_witness :
  0 <= 4711 < 100000000 /\
  generateAccountNumber "savings" 4711 = "200100004711" /\
  String.length (generateAccountNumber "savings" 4711) = 12%nat.
Proof.
  split; [lia|]. split; [reflexivity|].
  apply (account_number_format "savings" 4711). lia.
Defined.

(** ** [handleCreateAccount] *)

Lemma deposit_not_negative (initialDeposit : string) :
  (depositOf initialDeposit <? 0)%float = false ->
  (0 <=? depositOf initialDeposit)%float = true.
Proof.
  unfold depositOf, truthy.
  destruct (Prim2SF (parseFloat initialDeposit)) as [s|s| |s m e] eqn:E;
    try reflexivity;
    rewrite ltb_spec, leb_spec, E; change (Prim2SF 0) with (S754_zero false);
    now destruct s.
Qed.

Lemma gtb_zero_not_ltb (x : number) : gtb x 0 = true -> (x <? 0)%float = false.
Proof.
  unfold gtb. rewrite !ltb_spec. change (Prim2SF 0) with (S754_zero false).
  now destruct (Prim2SF x) as [s|[]| |[] m e].
Qed.

(** X23. The initial-deposit record does not take its destination from the
    account just created: it reads the clock again. With the required
    fields filled in, a deposit [> 0] and every database call resolving,
    the account is stored under [acc_] + the first clock reading, the
    record is appended with destination [acc_] + the third reading, and the
    record points at the new account exactly when those two readings are
    equal. *)
Theorem deposit_record_destination
    (userId : string) (random : Z) (createdAt : string) (m : Modal) (w : World) :
  falsy (m_accountType m) = false -> falsy (m_accountName m) = false ->
  gtb (depositOf (m_initialDeposit m)) 0 = true ->
  no_rejection w ->
  let r := handleCreateAccount userId random createdAt m w in
  let account :=
    newAccount userId m (generateAccountNumber (m_accountType m) random)
      (clock w (ticks w)) createdAt in
  let record :=
    depositRecord (depositOf (m_initialDeposit m)) (clock w (S (ticks w)))
      (clock w (S (S (ticks w)))) (clock w (S (S (S (ticks w))))) in
  r.1 = Normal modal_done /\
  accountsTable (db r.2) = <[acc_id account := account]> (accountsTable (db w)) /\
  transactionsTable (db r.2) = transactionsTable (db w) ++ [record] /\
  (tx_toAccountId record = Some (acc_id account) <->
   clock w (S (S (ticks w))) = clock w (ticks w)).
Proof.
  intros H1 H2 Hd Hrej r account record.
  split; [|split; [|split]].
  - subst r. unfold handleCreateAccount. rewrite H1, H2. simpl.
    rewrite (gtb_zero_not_ltb _ Hd), Hd.
    unfold try_catch, accounts_create. run_effects. resolve_calls Hrej.
    reflexivity.
  - subst r. unfold handleCreateAccount. rewrite H1, H2. simpl.
    rewrite (gtb_zero_not_ltb _ Hd), Hd.
    unfold try_catch, accounts_create. run_effects. resolve_calls Hrej.
    reflexivity.
  - subst r. unfold handleCreateAccount. rewrite H1, H2. simpl.
    rewrite (gtb_zero_not_ltb _ Hd), Hd.
    unfold try_catch, accounts_create. run_effects. resolve_calls Hrej.
    reflexivity.
  - simpl. split.
    + intros [= E]. now apply toString_inj.
    + intros ->. reflexivity.
Qed.

(** X23 with a clock that advances between the readings: the record names
    an account id under which nothing is stored. *)
Lemma deposit_record_destination_witness :
  let w := world_ticking (store []) 1700000000000 in
  let r := handleCreateAccount "user_1" 4711 "2024-01-01T00:00:00.000Z"
             modal_savings w in
  gtb (depositOf (m_initialDeposit modal_savings)) 0 = true /\
  map tx_toAccountId (transactionsTable (db r.2)) = [Some "acc_1700000000002"] /\
  balance_of (db r.2) "acc_1700000000000" = Some 250%float /\
  balance_of (db r.2) "acc_1700000000002" = None.
Proof.
  intros w r. split; [reflexivity|].
  destruct (deposit_record_destination "user_1" 4711
              "2024-01-01T00:00:00.000Z" modal_savings w)
    as (_ & Hacc & Htx & _); try reflexivity.
  - intros n. reflexivity.
  - subst r. unfold balance_of. rewrite Hacc, Htx.
    repeat split; vm_compute; reflexivity.
Defined.

(** X24. A deposit that parses to a number [< 0] is turned down: the
    message says so, no database call is made, nothing is written and the
    modal keeps its fields. *)
Theorem negative_deposit_rejected
    (userId : string) (random : Z) (createdAt : string) (m : Modal) (w : World) :
  falsy (m_accountType m) = false -> falsy (m_accountName m) = false ->
  (parseFloat (m_initialDeposit m) <? 0)%float = true ->
  let r := handleCreateAccount userId random createdAt m w in
  r.1 = Normal m /\ db r.2 = db w /\ calls r.2 = calls w /\
  toasts (ui r.2) =
    toasts (ui w) ++ [errorToast "Initial deposit cannot be negative"].
Proof.
  intros H1 H2 Hneg r. subst r. unfold handleCreateAccount.
  rewrite H1, H2. simpl.
  assert (E : (depositOf (m_initialDeposit m) <? 0)%float = true).
  { unfold depositOf, truthy. rewrite ltb_spec in Hneg.
    change (Prim2SF 0) with (S754_zero false) in Hneg.
    destruct (Prim2SF (parseFloat (m_initialDeposit m))) as [s|s| |s k e] eqn:P;
      try discriminate; rewrite ltb_spec, P; exact Hneg. }
  rewrite E. auto.
Qed.

(** X24 at a deposit of -20. *)
Lemma negative_deposit_rejected_witness :
  let w := world (store []) 1700000000000 in
  let r := handleCreateAccount "user_1" 4711 "2024-01-01T00:00:00.000Z"
             modal_negative w in
  (parseFloat (m_initialDeposit modal_negative) <? 0)%float = true /\
  r.1 = Normal modal_negative /\ db r.2 = db w.
Proof.
  intros w r. split; [reflexivity|].
  destruct (negative_deposit_rejected "user_1" 4711
              "2024-01-01T00:00:00.000Z" modal_negative w)
    as (Hr & Hdb & _); try reflexivity.
  split; [exact Hr | exact Hdb].
Defined.

(** X25. A deposit field that is empty, is not a number, or is zero counts
    as a deposit of 0: with the required fields filled in and the database
    call resolving, the account is created with balance 0 and no
    transaction record is written. *)
Theorem account_without_deposit
    (userId : string) (random : Z) (createdAt : string) (m : Modal) (w : World) :
  falsy (m_accountType m) = false -> falsy (m_accountName m) = false ->
  truthy (parseFloat (m_initialDeposit m)) = false ->
  rejects w (calls w) = false ->
  let r := handleCreateAccount userId random createdAt m w in
  let account :=
    newAccount userId m (generateAccountNumber (m_accountType m) random)
      (clock w (ticks w)) createdAt in
  r.1 = Normal modal_done /\
  acc_balance account = 0%float /\
  accountsTable (db r.2) = <[acc_id account := account]> (accountsTable (db w)) /\
  transactionsTable (db r.2) = transactionsTable (db w).
Proof.
  intros H1 H2 Hf R r account. subst r account.
  unfold handleCreateAccount, newAccount, depositOf.
  rewrite H1, H2, Hf. simpl.
  unfold try_catch, accounts_create. run_effects. rewrite R. simpl. auto.
Qed.

(** X25 at an empty deposit field. *)
Lemma account_without_deposit_witness :
  let w := world (store []) 1700000000000 in
  let r := handleCreateAccount "user_1" 4711 "2024-01-01T00:00:00.000Z"
             modal_no_deposit w in
  truthy (parseFloat (m_initialDeposit modal_no_deposit)) = false /\
  balance_of (db r.2) "acc_1700000000000" = Some 0%float /\
  transactionsTable (db r.2) = [].
Proof.
  intros w r. split; [reflexivity|].
  destruct (account_without_deposit "user_1" 4711
              "2024-01-01T00:00:00.000Z" modal_no_deposit w)
    as (_ & _ & Hacc & Htx); try reflexivity.
  subst r. unfold balance_of. rewrite Hacc, Htx.
  split; vm_compute; reflexivity.
Defined.

(** X26. When the account is created and the call that creates its
    initial-deposit record rejects, the account stays, holding the
    deposit as its balance, with no record of the deposit; the user is
    told that the creation failed and the modal stays as it was, fields
    filled in. *)
Theorem deposit_record_rejected
    (userId : string) (random : Z) (createdAt : string) (m : Modal) (w : World) :
  falsy (m_accountType m) = false -> falsy (m_accountName m) = false ->
  gtb (depositOf (m_initialDeposit m)) 0 = true ->
  rejects w (calls w) = false ->
  rejects w (S (calls w)) = true ->
  let r := handleCreateAccount userId random createdAt m w in
  let account :=
    newAccount userId m (generateAccountNumber (m_accountType m) random)
      (clock w (ticks w)) createdAt in
  r.1 = Normal (modal_kept m) /\
  accountsTable (db r.2) = <[acc_id account := account]> (accountsTable (db w)) /\
  acc_balance account = depositOf (m_initialDeposit m) /\
  transactionsTable (db r.2) = transactionsTable (db w) /\
  toasts (ui r.2) = toasts (ui w) ++ [errorToast "Failed to create account"].
Proof.
  intros H1 H2 Hd R0 R1 r account. subst r account.
  unfold handleCreateAccount. rewrite H1, H2. simpl.
  rewrite (gtb_zero_not_ltb _ Hd), Hd.
  unfold try_catch, accounts_create. run_effects. rewrite R0. simpl.
  rewrite R1. simpl. auto.
Qed.

(** X26 at the savings modal with the second call rejecting. *)
Lemma deposit_record_rejected_witness :
  let w := world_rejecting 1 (store []) 1700000000000 in
  let r := handleCreateAccount "user_1" 4711 "2024-01-01T00:00:00.000Z"
             modal_savings w in
  rejects w (S (calls w)) = true /\
  balance_of (db r.2) "acc_1700000000000" = Some 250%float /\
  transactionsTable (db r.2) = [] /\
  r.1 = Normal (modal_kept modal_savings).
Proof.
  intros w r. split; [reflexivity|].
  destruct (deposit_record_rejected "user_1" 4711
              "2024-01-01T00:00:00.000Z" modal_savings w)
    as (Hr & Hacc & _ & Htx & _); try reflexivity.
  subst r. unfold balance_of. rewrite Hacc, Htx.
  repeat split; try exact Hr; vm_compute; reflexivity.
Defined.

(** X27. Whatever the modal holds and whichever database calls reject,
    [handleCreateAccount] writes at most one account and at most one
    record. The account, if any, is active, in USD, owned by the user, of
    the type entered (not empty), and its balance is a number [>= 0]. The
    record, if any, is a [completed] deposit without a source, whose
    amount is that balance and is [> 0]. *)
Theorem created_account_is_sound
    (userId : string) (random : Z) (createdAt : string) (m : Modal) (w : World) :
  let d' := db (handleCreateAccount userId random createdAt m w).2 in
  d' = db w \/
  exists account,
    accountsTable d' = <[acc_id account := account]> (accountsTable (db w)) /\
    acc_status account = "active" /\ acc_currency account = "USD" /\
    acc_userId account = userId /\
    acc_accountType account = m_accountType m /\ m_accountType m <> "" /\
    (0 <=? acc_balance account)%float = true /\
    (transactionsTable d' = transactionsTable (db w) \/
     exists t,
       transactionsTable d' = transactionsTable (db w) ++ [t] /\
       tx_status t = "completed" /\ tx_transactionType t = "deposit" /\
       tx_fromAccountId t = None /\ tx_amount t = acc_balance account /\
       gtb (tx_amount t) 0 = true).
Proof.
  unfold handleCreateAccount.
  destruct (falsy (m_accountType m)) eqn:H1; [now left|].
  destruct (falsy (m_accountName m)) eqn:H2; [now left|]. simpl.
  destruct (depositOf (m_initialDeposit m) <? 0)%float eqn:Hd; [now left|].
  assert (T : m_accountType m <> "").
  { intros E. rewrite E in H1. discriminate. }
  pose proof (deposit_not_negative _ Hd) as Hpos.
  unfold try_catch, accounts_create. run_effects.
  destruct (rejects w (calls w)); simpl; [now left|].
  right.
  exists (newAccount userId m (generateAccountNumber (m_accountType m) random)
            (clock w (ticks w)) createdAt).
  destruct (gtb (depositOf (m_initialDeposit m)) 0) eqn:G; simpl;
    [destruct (rejects w (S (calls w))); simpl|];
    (split; [reflexivity|]); repeat split; auto.
  right. eexists. repeat split. exact G.
Qed.

(** ** The figures of the analytics dashboard *)

Section AnalyticsFacts.

Variable monthLabel : string -> string.

Lemma map_get_None {V : Type} (m : JsMap V) (k : string) :
  map_get m k = None -> ~ In k (map fst m).
Proof.
  unfold map_get. induction m as [|[k' v'] m IH]; simpl; [tauto|].
  destruct (String.eqb_spec k' k) as [->|Hne]; [discriminate|].
  intros H [E|Hin]; [contradiction | now apply IH].
Qed.

Lemma map_set_keys {V : Type} (m : JsMap V) (k : string) (v : V) :
  map fst (map_set m k v) =
  if existsb (String.eqb k) (map fst m) then map fst m else map fst m ++ [k].
Proof.
  induction m as [|[k' v'] m IH]; simpl; [reflexivity|].
  rewrite (String.eqb_sym k k').
  destruct (String.eqb_spec k' k) as [->|Hne]; simpl; [reflexivity|].
  rewrite IH. now destruct (existsb _ _).
Qed.

Lemma existsb_eqb_In (k : string) (l : list string) :
  existsb (String.eqb k) l = true <-> In k l.
Proof.
  rewrite existsb_exists. split.
  - intros (x & Hx & E). apply String.eqb_eq in E. now subst.
  - intros H. exists k. split; [exact H | apply String.eqb_refl].
Qed.

Lemma map_set_NoDup {V : Type} (m : JsMap V) (k : string) (v : V) :
  NoDup (map fst m) -> NoDup (map fst (map_set m k v)).
Proof.
  intros H. rewrite map_set_keys.
  destruct (existsb (String.eqb k) (map fst m)) eqn:E; [exact H|].
  apply NoDup_app. split; [exact H|]. split.
  - intros x Hx Hk. apply list_elem_of_In in Hx, Hk.
    destruct Hk as [<-|[]].
    apply existsb_eqb_In in Hx. congruence.
  - apply NoDup_singleton.
Qed.

Lemma map_set_In {V : Type} (m : JsMap V) (k k' : string) (v : V) :
  In k' (map fst m) \/ k' = k -> In k' (map fst (map_set m k v)).
Proof.
  rewrite map_set_keys.
  destruct (existsb (String.eqb k) (map fst m)) eqn:E.
  - intros [H| ->]; [exact H | now apply existsb_eqb_In].
  - rewrite in_app_iff. simpl. intuition.
Qed.

Lemma tallyOne_keys (ids : list string) (t : Tally) (tx : AnalyticsRow) :
  keys_ok t ->
  keys_ok (tallyOne monthLabel ids t tx) /\
  In (monthLabel (an_createdAt tx))
     (map fst (t_monthlyMap (tallyOne monthLabel ids t tx))) /\
  In (categoryOf tx) (map fst (t_categoryMap (tallyOne monthLabel ids t tx))) /\
  (forall k, In k (map fst (t_monthlyMap t)) ->
             In k (map fst (t_monthlyMap (tallyOne monthLabel ids t tx)))) /\
  (forall k, In k (map fst (t_categoryMap t)) ->
             In k (map fst (t_categoryMap (tallyOne monthLabel ids t tx)))).
Proof.
  intros [Hm Hc]. unfold tallyOne, keys_ok. simpl.
  repeat split.
  - apply map_set_NoDup.
    destruct (map_get (t_monthlyMap t) _); [exact Hm | now apply map_set_NoDup].
  - now apply map_set_NoDup.
  - apply map_set_In. now right.
  - apply map_set_In. now right.
  - intros k Hk. apply map_set_In. left.
    destruct (map_get (t_monthlyMap t) _); [exact Hk|].
    apply map_set_In. now left.
  - intros k Hk. apply map_set_In. now left.
Qed.

Lemma tally_keys (ids : list string) (txs : list AnalyticsRow) (t : Tally) :
  keys_ok t ->
  let t' := fold_left (tallyOne monthLabel ids) txs t in
  keys_ok t' /\
  (forall k, In k (map fst (t_monthlyMap t)) -> In k (map fst (t_monthlyMap t'))) /\
  (forall k, In k (map fst (t_categoryMap t)) -> In k (map fst (t_categoryMap t'))) /\
  forall tx, In tx txs ->
    In (monthLabel (an_createdAt tx)) (map fst (t_monthlyMap t')) /\
    In (categoryOf tx) (map fst (t_categoryMap t')).
Proof.
  revert t. induction txs as [|tx0 txs IH]; intros t Hok; simpl.
  - split; [exact Hok|]. split; [auto|]. split; [auto|]. intros tx [].
  - destruct (tallyOne_keys ids t tx0 Hok) as (Hok1 & Hm1 & Hc1 & Hmk & Hck).
    destruct (IH _ Hok1) as (Hok' & Hmk' & Hck' & Hall).
    split; [exact Hok'|]. split; [auto|]. split; [auto|].
    intros tx [<-|Hin]; [auto | now apply Hall].
Qed.

(** X28. In the analytics, every month appears once in the monthly data
    and every category once in the breakdown, and (for a user who has an
    account) the month and the category of every transaction are among
    them. *)
Theorem analytics_keys_are_distinct
    (accounts : list Account) (transactions : list AnalyticsRow) :
  let a := analytics monthLabel accounts transactions in
  NoDup (map fst (monthlyData a)) /\
  NoDup (map category (categoryBreakdown a)) /\
  (accounts <> [] ->
   forall tx, In tx transactions ->
     In (monthLabel (an_createdAt tx)) (map fst (monthlyData a)) /\
     In (categoryOf tx) (map category (categoryBreakdown a))).
Proof.
  unfold analytics. destruct accounts as [|acc accounts].
  - simpl. split; [constructor|]. split; [constructor|]. contradiction.
  - destruct (tally_keys (map acc_id (acc :: accounts)) transactions
                {| t_totalIncome := 0; t_totalExpenses := 0;
                   t_monthlyMap := []; t_categoryMap := [] |})
      as ([Hm Hc] & _ & _ & Hall).
    { split; constructor. }
    cbn [monthlyData categoryBreakdown]. rewrite map_map.
    split; [exact Hm|]. split; [exact Hc|]. intros _ tx Hin.
    exact (Hall tx Hin).
Qed.

Lemma tally_totals (ids : list string) (txs : list AnalyticsRow) (t : Tally) :
  let t' := fold_left (tallyOne monthLabel ids) txs t in
  t_totalIncome t' =
    fold_left (fun sum tx => (sum + parseFloat (an_amount tx))%float)
      (List.filter (isIncome ids) txs) (t_totalIncome t) /\
  t_totalExpenses t' =
    fold_left (fun sum tx => (sum + parseFloat (an_amount tx))%float)
      (List.filter (fun tx => negb (isIncome ids tx)) txs) (t_totalExpenses t).
Proof.
  revert t. induction txs as [|tx txs IH]; intros t; simpl; [auto|].
  destruct (IH (tallyOne monthLabel ids t tx)) as [Hi He].
  rewrite Hi, He. cbn [t_totalIncome t_totalExpenses tallyOne].
  destruct (isIncome ids tx); simpl; auto.
Qed.

(** X29. The analytics sort a transaction by its destination alone: the
    total income is the sum, in the order received, of the amounts of the
    transactions whose destination is one of the user's accounts, and the
    total expenses the sum of all the others. A transfer between two of the
    user's own accounts is therefore counted as income and never as an
    expense. *)
Theorem analytics_income_by_destination
    (accounts : list Account) (transactions : list AnalyticsRow) :
  accounts <> [] ->
  let a := analytics monthLabel accounts transactions in
  let own := isIncome (map acc_id accounts) in
  totalIncome a =
    fold_left (fun sum tx => (sum + parseFloat (an_amount tx))%float)
      (List.filter own transactions) 0%float /\
  totalExpenses a =
    fold_left (fun sum tx => (sum + parseFloat (an_amount tx))%float)
      (List.filter (fun tx => negb (own tx)) transactions) 0%float.
Proof.
  intros Hne. unfold analytics. destruct accounts as [|acc accounts];
    [contradiction|].
  cbn [totalIncome totalExpenses].
  apply (tally_totals (map acc_id (acc :: accounts)) transactions).
Qed.

Lemma tally_other (ids : list string) (txs : list AnalyticsRow) (t : Tally) :
  (forall tx, In tx txs -> an_type tx = None) ->
  map fst (t_categoryMap t) = [] \/ map fst (t_categoryMap t) = ["Other"] ->
  let keys := map fst (t_categoryMap (fold_left (tallyOne monthLabel ids) txs t)) in
  match txs with
  | [] => keys = map fst (t_categoryMap t)
  | _ :: _ => keys = ["Other"]
  end.
Proof.
  revert t. induction txs as [|tx txs IH]; intros t Hall Hk; simpl;
    [reflexivity|].
  assert (K : map fst (t_categoryMap (tallyOne monthLabel ids t tx)) = ["Other"]).
  { unfold tallyOne. simpl. rewrite map_set_keys.
    unfold categoryOf. rewrite (Hall tx) by now left.
    destruct Hk as [-> | ->]; reflexivity. }
  specialize (IH (tallyOne monthLabel ids t tx)).
  destruct txs as [|tx' txs]; [exact K|].
  apply IH; [|now right]. intros tx0 H0. apply Hall. now right.
Qed.

(** X30. The category of a transaction is read from its [type] field. When
    no transaction carries one (the records this application writes carry
    [transactionType]), the breakdown of a user who has an account is a
    single category, 'Other', or is empty when there is no transaction. *)
Theorem analytics_single_category
    (accounts : list Account) (transactions : list AnalyticsRow) :
  accounts <> [] ->
  (forall tx, In tx transactions -> an_type tx = None) ->
  map category (categoryBreakdown (analytics monthLabel accounts transactions)) =
  match transactions with
  | [] => []
  | _ :: _ => ["Other"]
  end.
Proof.
  intros Hne Hall. unfold analytics. destruct accounts as [|acc accounts];
    [contradiction|].
  cbn [categoryBreakdown]. rewrite map_map. simpl.
  pose proof (tally_other (map acc_id (acc :: accounts)) transactions
                {| t_totalIncome := 0; t_totalExpenses := 0;
                   t_monthlyMap := []; t_categoryMap := [] |} Hall) as T.
  simpl in T. specialize (T (or_introl eq_refl)).
  destruct transactions; exact T.
Qed.

End AnalyticsFacts.

(** X29 at a transfer from X to Y, both the user's, and one to an account
    Q of somebody else. *)
Lemma analytics_income_by_destination_witness :
  let a := analytics isoMonth [X100; Y50] [row_transfer_in; row_transfer_out] in
  [X100; Y50] <> [] /\
  totalIncome a = 30%float /\ totalExpenses a = 12.5%float.
Proof.
  intros a. split; [discriminate|].
  destruct (analytics_income_by_destination isoMonth [X100; Y50]
              [row_transfer_in; row_transfer_out]) as (Hi & He);
    [discriminate|].
  subst a. rewrite Hi, He. split; reflexivity.
Defined.

(** X28 at the same transactions. *)
Lemma analytics_keys_are_distinct_witness :
  let a := analytics isoMonth [X100; Y50] [row_transfer_in; row_transfer_out] in
  [X100; Y50] <> [] /\
  In (isoMonth (an_createdAt row_transfer_out)) (map fst (monthlyData a)) /\
  map fst (monthlyData a) = ["2024-02"; "2024-03"].
Proof.
  intros a. split; [discriminate|].
  destruct (analytics_keys_are_distinct isoMonth [X100; Y50]
              [row_transfer_in; row_transfer_out]) as (_ & _ & H).
  split; [|reflexivity].
  apply H; [discriminate | right; now left].
Defined.

(** X30 at the same transactions: one category, with all of the total. *)
Lemma analytics_single_category_witness :
  let a := analytics isoMonth [X100; Y50] [row_transfer_in; row_transfer_out] in
  (forall tx, In tx [row_transfer_in; row_transfer_out] -> an_type tx = None) /\
  map category (categoryBreakdown a) = ["Other"] /\
  map percentage (categoryBreakdown a) = [100%float].
Proof.
  intros a.
  assert (H : forall tx, In tx [row_transfer_in; row_transfer_out] ->
                         an_type tx = None).
  { intros tx [<-|[<-|[]]]; reflexivity. }
  split; [exact H|]. split; [|reflexivity].
  apply (analytics_single_category isoMonth [X100; Y50]
           [row_transfer_in; row_transfer_out]); [discriminate | exact H].
Defined.
